(** * PodSec: the secrets proxy of [backend/main.py] and its credential store

    A shallow embedding of the request handlers of [backend/main.py] and of
    the [User] table of [backend/database.py].

    - Python [str] values are sequences of Unicode code points ([list N]).
    - Values that travel as JSON (backend answers, handler results) are
      terms of [json]; a Python [dict] is an association list in insertion
      order with distinct keys.
    - Exceptions are terms of [exn]; code that may raise lives in
      [exn + A], and code that also talks to Podman in the monad [Eff],
      which threads the outside world and the log of backend calls.
    - The [users] table is a finite map indexed by its unique [username]
      column. *)

From Stdlib Require Import ZArith NArith List Ascii String Bool Lia SpecFloat.
From stdpp Require Import gmap strings.
Import ListNotations.

Local Open Scope Z_scope.

(** ** Python strings *)

Definition char := N.
Definition str := list char.

(** A string literal of the source (ASCII only). *)
Definition py (s : string) : str := map N_of_ascii (list_ascii_of_string s).
Arguments py s%_string.

(** Truth value of a [str]: empty is false. *)
Definition str_truthy (s : str) : bool :=
  match s with [] => false | _ :: _ => true end.

(** [a or b] on strings. *)
Definition str_or (a b : str) : str := if str_truthy a then a else b.

(** [c in s] for a one-character [c]. *)
Definition char_in (c : char) (s : str) : bool := existsb (N.eqb c) s.

(** Code points that [str.strip()] removes (Unicode white space as CPython
    defines it). *)
Definition isspace (c : char) : bool :=
  ((9 <=? c) && (c <=? 13) || (28 <=? c) && (c <=? 32)
   || (c =? 133) || (c =? 160) || (c =? 5760)
   || (8192 <=? c) && (c <=? 8202)
   || (c =? 8232) || (c =? 8233) || (c =? 8239) || (c =? 8287)
   || (c =? 12288))%N.

Fixpoint lstrip (s : str) : str :=
  match s with
  | [] => []
  | c :: s' => if isspace c then lstrip s' else s
  end.

Definition rstrip (s : str) : str := rev (lstrip (rev s)).

Definition strip (s : str) : str := rstrip (lstrip s).

Fixpoint startswith (s prefix : str) : bool :=
  match prefix, s with
  | [], _ => true
  | _ :: _, [] => false
  | p :: prefix', c :: s' => (c =? p)%N && startswith s' prefix'
  end.

(** [s.replace(old, new)] for a non-empty [old]: occurrences are replaced
    from the left and do not overlap. [skip] counts the characters of a
    match that are still to be dropped. *)
Fixpoint replace_from (skip : nat) (old new s : str) : str :=
  match s with
  | [] => []
  | c :: s' =>
      match skip with
      | S k => replace_from k old new s'
      | O =>
          if startswith s old
          then new ++ replace_from (Nat.pred (length old)) old new s'
          else c :: replace_from O old new s'
      end
  end.

Definition replace (s old new : str) : str := replace_from O old new s.

(** ** Name validation (the two checks of [create_secret] and of
    [create_bulk_secrets]) *)

Definition forbidden_chars : list char :=
  [61%N (* = *); 47%N (* / *); 44%N (* , *); 0%N (* NUL *)].

(** [secret.name.strip() if secret.name else <empty string>] *)
Definition stripped_name (name : str) : str :=
  if str_truthy name then strip name else [].

(** [not secret_name or len(secret_name) < 1 or len(secret_name) > 253] *)
Definition bad_length (secret_name : str) : bool :=
  negb (str_truthy secret_name)
  || (length secret_name <? 1)%nat
  || (253 <? length secret_name)%nat.

(** [any(char in secret_name for char in ['=', '/', ',', '\0'])] *)
Definition has_forbidden_char (secret_name : str) : bool :=
  existsb (fun c => char_in c secret_name) forbidden_chars.

Fixpoint str_eqb (a b : str) : bool :=
  match a, b with
  | [], [] => true
  | x :: a', y :: b' => (x =? y)%N && str_eqb a' b'
  | _, _ => false
  end.

(** ** JSON values and exceptions *)

#[warnings="-register-all"]
Inductive json : Type :=
| JNull
| JBool (b : bool)
| JInt (z : Z)
| JFloat (f : spec_float)
| JStr (s : str)
| JList (l : list json)
| JDict (d : list (str * json)).

(** The exceptions the handlers raise, catch or let through. [OtherError]
    stands for every other subclass of [Exception] (connection errors,
    time-outs, [OSError], ...). *)
Inductive exn : Type :=
| HTTPException (status_code : Z) (detail : str) (headers : list (str * str))
| HTTPStatusError (status_code : Z) (text : str)
| CalledProcessError (returncode : Z) (stderr : str)
| JSONDecodeError (doc : str)
| FileNotFoundError (msg : str)
| AttributeError (msg : str)
| TypeError (msg : str)
| KeyError (msg : str)
| IndexError (msg : str)
| ResponseValidationError (msg : str)
| UnicodeEncodeError (msg : str)
| OtherError (msg : str).

Definition HTTP_200_OK : Z := 200.
Definition HTTP_201_CREATED : Z := 201.
Definition HTTP_400_BAD_REQUEST : Z := 400.
Definition HTTP_401_UNAUTHORIZED : Z := 401.
Definition HTTP_404_NOT_FOUND : Z := 404.
Definition HTTP_500_INTERNAL_SERVER_ERROR : Z := 500.

(** Computations that may raise. *)
Definition except_bind {A B : Type} (m : exn + A) (k : A -> exn + B) : exn + B :=
  match m with
  | inl e => inl e
  | inr a => k a
  end.

Notation "'let+' x := m 'in' k" := (except_bind m (fun x => k))
  (at level 10, x name, m at level 100, k at level 200).

Fixpoint map_except {A B : Type} (f : A -> exn + B) (l : list A) : exn + list B :=
  match l with
  | [] => inr []
  | x :: l' =>
      let+ y := f x in
      let+ ys := map_except f l' in
      inr (y :: ys)
  end.

(** Truth value of a Python object that came out of [json.loads]. *)
Definition json_truthy (v : json) : bool :=
  match v with
  | JNull => false
  | JBool b => b
  | JInt z => negb (z =? 0)
  | JFloat f => match f with S754_zero _ => false | _ => true end
  | JStr s => str_truthy s
  | JList l => match l with [] => false | _ => true end
  | JDict d => match d with [] => false | _ => true end
  end.

Fixpoint dict_lookup (key : str) (d : list (str * json)) : option json :=
  match d with
  | [] => None
  | (k, v) :: d' => if str_eqb k key then Some v else dict_lookup key d'
  end.

(** [x.get(key, default)]: only a [dict] has the method. *)
Definition py_get (x : json) (key : str) (default : json) : exn + json :=
  match x with
  | JDict d => inr (match dict_lookup key d with Some v => v | None => default end)
  | _ => inl (AttributeError (py "get"))
  end.

(** [for item in x]: the items a loop over [x] visits. *)
Definition py_iter (x : json) : exn + list json :=
  match x with
  | JList l => inr l
  | JDict d => inr (map (fun kv => JStr (fst kv)) d)
  | JStr s => inr (map (fun c => JStr [c]) s)
  | _ => inl (TypeError (py "object is not iterable"))
  end.

(** [len(x)] *)
Definition py_len (x : json) : exn + nat :=
  match x with
  | JList l => inr (length l)
  | JDict d => inr (length d)
  | JStr s => inr (length s)
  | _ => inl (TypeError (py "object has no len()"))
  end.

(** [x[0]]. The keys of a decoded JSON object are strings, so the integer
    key 0 is never found in a [dict]. *)
Definition py_item0 (x : json) : exn + json :=
  match x with
  | JList (v :: _) => inr v
  | JList [] => inl (IndexError (py "list index out of range"))
  | JStr (c :: _) => inr (JStr [c])
  | JStr [] => inl (IndexError (py "string index out of range"))
  | JDict _ => inl (KeyError (py "0"))
  | _ => inl (TypeError (py "object is not subscriptable"))
  end.

(** ** [base64.b64encode(data.encode('utf-8')).decode('utf-8')]

    A string that holds a lone surrogate (a JSON body can carry one as an
    escape) cannot be encoded: [encode] raises [UnicodeEncodeError]. *)

Definition utf8_encode_char (c : char) : list N :=
  (if c <? 128 then [c]
   else if c <? 2048 then [192 + c / 64; 128 + c mod 64]
   else if c <? 65536 then [224 + c / 4096; 128 + (c / 64) mod 64; 128 + c mod 64]
   else [240 + c / 262144; 128 + (c / 4096) mod 64; 128 + (c / 64) mod 64;
         128 + c mod 64])%N.

Definition is_surrogate (c : char) : bool := ((55296 <=? c) && (c <=? 57343))%N.

(** [s.encode('utf-8')] *)
Definition utf8_encode (s : str) : exn + list N :=
  if existsb is_surrogate s
  then inl (UnicodeEncodeError (py "surrogates not allowed"))
  else inr (flat_map utf8_encode_char s).

Definition b64_alphabet : str :=
  py "ABCDEFGHIJKLMNOPQRSTUVWXYZabcdefghijklmnopqrstuvwxyz0123456789+/".

Definition b64_digit (n : N) : char := nth (N.to_nat n) b64_alphabet 0%N.

Fixpoint b64encode (bytes : list N) : str :=
  match bytes with
  | [] => []
  | [a] =>
      [b64_digit (a / 4); b64_digit ((a mod 4) * 16); 61; 61]%N
  | [a; b] =>
      [b64_digit (a / 4); b64_digit ((a mod 4) * 16 + b / 16);
       b64_digit ((b mod 16) * 4); 61]%N
  | a :: b :: c :: rest =>
      [b64_digit (a / 4); b64_digit ((a mod 4) * 16 + b / 16);
       b64_digit ((b mod 16) * 4 + c / 64); b64_digit (c mod 64)]%N ++ b64encode rest
  end.

(** [base64.b64encode(s.encode('utf-8')).decode('utf-8')] *)
Definition b64encode_utf8 (s : str) : exn + str :=
  match utf8_encode s with
  | inl e => inl e
  | inr bytes => inr (b64encode bytes)
  end.

(** ** The outside world: Podman behind HTTP or behind a child process *)

Record http_request : Type := {
  method : str;
  url : str;
  params : list (str * str);
  json_body : option json
}.

(** What [client.request(...)] followed by [response.raise_for_status()]
    can do: deliver a response body, raise [HTTPStatusError] for an error
    status, or raise something else. *)
Inductive http_outcome : Type :=
| Responded (content : str)
| StatusError (status_code : Z) (text : str)
| RequestError (e : exn).

(** What starting a child process, writing its input and waiting for it
    can do: the process exits, or one of these steps raises. *)
Inductive proc_outcome : Type :=
| Exited (returncode : Z) (stdout stderr : str)
| SpawnError (e : exn).

(** One backend call, with what came back. *)
Inductive event : Type :=
| HttpEvent (req : http_request) (out : http_outcome)
| ProcEvent (argv : list str) (input : option str) (out : proc_outcome).

(** Everything the handlers take from their environment: the Podman
    service (stateful, so every call may change it) and the library
    functions whose results the handlers only pass on. *)
Class Runtime : Type := {
  World : Type;
  http_send : http_request -> World -> http_outcome * World;
  run_process : list str -> option str -> World -> proc_outcome * World;
  (** [json.loads] and [response.json()]: the decoded value, or the
      exception raised ([JSONDecodeError] for a malformed document,
      another one for a document the decoder gives up on) *)
  json_loads : str -> exn + json;
  (** [str(e)] *)
  exn_str : exn -> str
}.

Record St `{Runtime} : Type := {
  world : World;
  calls : list event
}.

Definition Eff `{Runtime} (A : Type) : Type := St -> (exn + A) * St.

(** The state after a backend call [ev] that left the world as [w]. *)
Definition log_call `{Runtime} (st : St) (w : World) (ev : event) : St :=
  {| world := w; calls := calls st ++ [ev] |}.

Definition ret `{Runtime} {A : Type} (a : A) : Eff A := fun st => (inr a, st).

Definition raise `{Runtime} {A : Type} (e : exn) : Eff A := fun st => (inl e, st).

Definition bind `{Runtime} {A B : Type} (m : Eff A) (k : A -> Eff B) : Eff B :=
  fun st =>
    match m st with
    | (inl e, st') => (inl e, st')
    | (inr a, st') => k a st'
    end.

Notation "'let*' x := m 'in' k" := (bind m (fun x => k))
  (at level 10, x name, m at level 100, k at level 200).

(** [try: m  except ... as e: handler e] (a handler that does not match
    re-raises). *)
Definition try_except `{Runtime} {A : Type} (m : Eff A) (handler : exn -> Eff A) : Eff A :=
  fun st =>
    match m st with
    | (inl e, st') => handler e st'
    | (inr a, st') => (inr a, st')
    end.

Definition lift `{Runtime} {A : Type} (m : exn + A) : Eff A :=
  match m with
  | inl e => raise e
  | inr a => ret a
  end.

(** [await client.request(method, url, **kwargs)] and
    [response.raise_for_status()]; the result is [response.content]. *)
Definition client_request `{Runtime} (req : http_request) : Eff str :=
  fun st =>
    let (out, w) := http_send req (world st) in
    let st' := log_call st w (HttpEvent req out) in
    match out with
    | Responded content => (inr content, st')
    | StatusError code text => (inl (HTTPStatusError code text), st')
    | RequestError e => (inl e, st')
    end.

(** [subprocess.Popen(cmd, ...)] and [process.communicate(input)]; the
    result is [(process.returncode, stdout, stderr)]. *)
Definition popen_communicate `{Runtime} (cmd : list str) (input : option str) : Eff (Z * str * str) :=
  fun st =>
    let (out, w) := run_process cmd input (world st) in
    let st' := log_call st w (ProcEvent cmd input out) in
    match out with
    | Exited code stdout stderr => (inr (code, stdout, stderr), st')
    | SpawnError e => (inl e, st')
    end.

(** [subprocess.run(cmd, capture_output=True, text=True, check=True)]; the
    result is [result.stdout]. *)
Definition subprocess_run `{Runtime} (cmd : list str) : Eff str :=
  let* r := popen_communicate cmd None in
  let '(code, stdout, stderr) := r in
  if code =? 0 then ret stdout else raise (CalledProcessError code stderr).

(** ** Module-level configuration of [main.py] (lines 31-41) *)

(** [os.getenv(key, default)]; [environ] is the process environment after
    [load_dotenv()]. *)
Definition getenv (environ : gmap string str) (key : string) (default : str) : str :=
  match environ !! key with
  | Some v => v
  | None => default
  end.

(** The module globals. [USE_HTTP_API] is kept as its truth value: the
    source binds it to [PODMAN_HOST] itself when that is empty and to the
    result of [startswith] otherwise, and only ever tests it. *)
Record Config : Type := {
  PODMAN_HOST : str;
  PODMAN_CONNECTION : str;
  USE_HTTP_API : bool;
  PODMAN_API_URL : option str
}.

(** The assignments that run once, when the module is imported. *)
Definition load_config (environ : gmap string str) : Config :=
  let host := getenv environ "PODMAN_HOST" [] in
  let connection := getenv environ "PODMAN_CONNECTION" (py "my-tcp") in
  let use_http_api := str_truthy host && startswith host (py "tcp://") in
  {| PODMAN_HOST := host;
     PODMAN_CONNECTION := connection;
     USE_HTTP_API := use_http_api;
     PODMAN_API_URL :=
       if use_http_api then Some (replace host (py "tcp://") (py "http://")) else None |}.

(** ["podman"] followed by the host or connection option, when set. *)
Definition podman_cmd (cfg : Config) : list str :=
  [py "podman"] ++
  (if str_truthy (PODMAN_HOST cfg) then [py "--host"; PODMAN_HOST cfg]
   else if str_truthy (PODMAN_CONNECTION cfg) then [py "--connection"; PODMAN_CONNECTION cfg]
   else []).

(** ** Request and response models *)

Record SecretCreate : Type := {
  name : str;
  data : str;
  driver : option str
}.

Record BulkSecretCreate : Type := {
  secrets : list SecretCreate
}.

(** An [Optional[str]] as a JSON value. *)
Definition json_of_optional (o : option str) : json :=
  match o with
  | Some s => JStr s
  | None => JNull
  end.

(** A [str] field of a response model: a string is kept as it is; every
    other value is refused (the strict reading; nothing below depends on
    values that are not strings). *)
Definition str_field (d : list (str * json)) (key : str) : exn + json :=
  match dict_lookup key d with
  | Some (JStr s) => inr (JStr s)
  | _ => inl (ResponseValidationError key)
  end.

Definition dict_field (d : list (str * json)) (key : str) : exn + json :=
  match dict_lookup key d with
  | Some (JDict v) => inr (JDict v)
  | _ => inl (ResponseValidationError key)
  end.

(** [response_model=SecretResponse]: the returned object is reduced to the
    declared fields, in declaration order. *)
Definition SecretResponse (v : json) : exn + json :=
  match v with
  | JDict d =>
      let+ id := str_field d (py "ID") in
      let+ nm := str_field d (py "Name") in
      let+ drv := str_field d (py "Driver") in
      let+ created := str_field d (py "CreatedAt") in
      let+ updated := str_field d (py "UpdatedAt") in
      inr (JDict [(py "ID", id); (py "Name", nm); (py "Driver", drv);
                  (py "CreatedAt", created); (py "UpdatedAt", updated)])
  | _ => inl (ResponseValidationError (py "SecretResponse"))
  end.

Definition SecretDetail (v : json) : exn + json :=
  match v with
  | JDict d =>
      let+ id := str_field d (py "ID") in
      let+ nm := str_field d (py "Name") in
      let+ drv := str_field d (py "Driver") in
      let+ created := str_field d (py "CreatedAt") in
      let+ updated := str_field d (py "UpdatedAt") in
      let+ spec := dict_field d (py "Spec") in
      inr (JDict [(py "ID", id); (py "Name", nm); (py "Driver", drv);
                  (py "CreatedAt", created); (py "UpdatedAt", updated);
                  (py "Spec", spec)])
  | _ => inl (ResponseValidationError (py "SecretDetail"))
  end.

(** [response_model=List[model]] *)
Definition List_of (model : json -> exn + json) (v : json) : exn + json :=
  match v with
  | JList l => let+ l' := map_except model l in inr (JList l')
  | _ => inl (ResponseValidationError (py "List"))
  end.

(** ** The credential store ([database.py]) *)

Module database.

Record User : Type := {
  id : Z;
  username : str;
  hashed_password : str;
  created_at : Z;
  updated_at : Z
}.

(** The value the [id] column takes on the next [INSERT]. *)
Definition next_id (users : gmap str User) : Z :=
  1 + map_fold (fun _ u acc => Z.max (id u) acc) 0 users.

End database.

Abbreviation User := database.User.

(** The functions and the constant that [main.py] imports from [auth.py]
    and only calls. Hashing draws a fresh salt, so it takes one. *)
Class Auth : Type := {
  Salt : Type;
  verify_password : str -> str -> bool;
  get_password_hash : Salt -> str -> str;
  (** [create_access_token(data={"sub": sub}, expires_delta=...)], at the
      given time *)
  create_access_token : str -> Z -> Z -> str;
  ACCESS_TOKEN_EXPIRE_MINUTES : Z
}.

(** [init_db]: the [admin] row is inserted only when no row has that
    username. *)
Definition init_db `{Auth} (salt : Salt) (now : Z) (users : gmap str User) : gmap str User :=
  match users !! py "admin" with
  | Some _ => users
  | None =>
      <[py "admin" :=
          {| database.id := database.next_id users;
             database.username := py "admin";
             database.hashed_password := get_password_hash salt (py "admin");
             database.created_at := now;
             database.updated_at := now |}]> users
  end.

(** ** Authentication endpoints *)

Record UserLogin : Type := {
  login_username : str;
  login_password : str
}.

Record PasswordChange : Type := {
  current_password : str;
  new_password : str
}.

(** Modelled from the spec: [authenticate_user] of [auth.py], which is not
    among the sources. "Looks up user by exact username match; fails if
    absent or password mismatch". *)
Definition authenticate_user `{Auth} (db : gmap str User) (username password : str) : option User :=
  match db !! username with
  | None => None
  | Some user =>
      if verify_password password (database.hashed_password user) then Some user else None
  end.

(** [login] ([POST /api/auth/login]); [now] is the clock the token is
    stamped with. *)
Definition login `{Auth} (user_login : UserLogin) (db : gmap str User) (now : Z) : exn + json :=
  let user := authenticate_user db (login_username user_login) (login_password user_login) in
  match user with
  | None =>
      inl (HTTPException HTTP_401_UNAUTHORIZED (py "Incorrect username or password")
             [(py "WWW-Authenticate", py "Bearer")])
  | Some user =>
      let access_token_expires := ACCESS_TOKEN_EXPIRE_MINUTES in
      let access_token :=
        create_access_token (database.username user) access_token_expires now in
      inr (JDict [(py "access_token", JStr access_token); (py "token_type", JStr (py "bearer"))])
  end.

(** [change_password] ([POST /api/auth/change-password]). [current_user] is
    the row the session loaded; assigning its attribute and committing
    writes that row back, and the [onupdate] default stamps [updated_at]. *)
Definition change_password `{Auth} (password_change : PasswordChange) (current_user : User)
    (db : gmap str User) (salt : Salt) (now : Z) : (exn + json) * gmap str User :=
  if negb (verify_password (current_password password_change)
             (database.hashed_password current_user))
  then (inl (HTTPException HTTP_400_BAD_REQUEST (py "Current password is incorrect") []), db)
  else
    let updated :=
      {| database.id := database.id current_user;
         database.username := database.username current_user;
         database.hashed_password := get_password_hash salt (new_password password_change);
         database.created_at := database.created_at current_user;
         database.updated_at := now |} in
    (inr (JDict [(py "message", JStr (py "Password changed successfully"))]),
     <[database.username current_user := updated]> db).

(** The status line FastAPI sends: the route's own code for a returned
    value, the exception's code for an [HTTPException], 500 for anything
    else that escapes the handler. *)
Definition status_of {A : Type} (route_status : Z) (r : exn + A) : Z :=
  match r with
  | inr _ => route_status
  | inl (HTTPException code _ _) => code
  | inl _ => HTTP_500_INTERNAL_SERVER_ERROR
  end.

(** ** The two transports *)

Section Transport.
Context `{Runtime}.

(** [f"{PODMAN_API_URL}"] *)
Definition format_api_url (cfg : Config) : str :=
  match PODMAN_API_URL cfg with
  | Some u => u
  | None => py "None"
  end.

(** The request [http_api_request] hands to the client. *)
Definition api_request (cfg : Config) (method endpoint : str)
    (params : list (str * str)) (json_body : option json) : http_request :=
  let url := format_api_url cfg ++ py "/v4.0.0/libpod" ++ endpoint in
  {| method := method; url := url; params := params; json_body := json_body |}.

Definition http_api_request (cfg : Config) (method endpoint : str)
    (params : list (str * str)) (json_body : option json) : Eff json :=
  try_except
    (let* content := client_request (api_request cfg method endpoint params json_body) in
     if str_truthy content
     then lift (json_loads content)
     else ret (JDict []))
    (fun e =>
       match e with
       | HTTPStatusError code text =>
           raise (HTTPException code (py "Podman API error: " ++ text) [])
       | _ =>
           raise (HTTPException HTTP_500_INTERNAL_SERVER_ERROR
                    (py "Failed to connect to Podman API: " ++ exn_str e) [])
       end).

Definition run_podman_command (cfg : Config) (args : list str) : Eff json :=
  try_except
    (let cmd := podman_cmd cfg ++ args in
     let* stdout := subprocess_run cmd in
     if str_truthy (strip stdout)
     then lift (json_loads stdout)
     else ret (JDict []))
    (fun e =>
       match e with
       | CalledProcessError _ stderr =>
           raise (HTTPException HTTP_500_INTERNAL_SERVER_ERROR
                    (py "Podman error: " ++ stderr) [])
       | JSONDecodeError _ =>
           raise (HTTPException HTTP_500_INTERNAL_SERVER_ERROR
                    (py "Failed to parse Podman output") [])
       | FileNotFoundError _ =>
           raise (HTTPException HTTP_500_INTERNAL_SERVER_ERROR
                    (py "Podman is not installed or not in PATH") [])
       | _ => raise e
       end).

End Transport.

(** ** Secrets endpoints *)

(** The [results] dictionary of [create_bulk_secrets]: its two lists. Every
    path of the loop body appends as its last action, so the lists are
    threaded as a value. *)
Record Results : Type := {
  success : list json;
  failed : list json
}.

Definition append_success (results : Results) (secret_id : json) (secret_name : str) : Results :=
  {| success := success results ++ [JDict [(py "id", secret_id); (py "name", JStr secret_name)]];
     failed := failed results |}.

Definition append_failed (results : Results) (nm error : str) : Results :=
  {| success := success results;
     failed := failed results ++ [JDict [(py "name", JStr nm); (py "error", JStr error)]] |}.

Section Handlers.
Context `{Runtime}.

(** [for x in l: s = body(s, x)] *)
Fixpoint for_each {A S : Type} (body : S -> A -> Eff S) (l : list A) (s : S) : Eff S :=
  match l with
  | [] => ret s
  | x :: l' => let* s' := body s x in for_each body l' s'
  end.

(** The dictionary built for one secret of the remote listing. *)
Definition transformed_secret (secret : json) : exn + json :=
  let+ id := py_get secret (py "ID") (JStr []) in
  let+ spec := py_get secret (py "Spec") (JDict []) in
  let+ nm := py_get spec (py "Name") (JStr []) in
  let+ spec' := py_get secret (py "Spec") (JDict []) in
  let+ drv := py_get spec' (py "Driver") (JDict []) in
  let+ drv_name := py_get drv (py "Name") (JStr (py "file")) in
  let+ created := py_get secret (py "CreatedAt") (JStr []) in
  let+ updated := py_get secret (py "UpdatedAt") (JStr []) in
  inr (JDict [(py "ID", id); (py "Name", nm); (py "Driver", drv_name);
              (py "CreatedAt", created); (py "UpdatedAt", updated)]).

Definition list_secrets (cfg : Config) (current_user : User) : Eff json :=
  try_except
    (if USE_HTTP_API cfg then
       let* secrets := http_api_request cfg (py "GET") (py "/secrets/json") [] None in
       if negb (json_truthy secrets) then ret (JList [])
       else
         let* items := lift (py_iter secrets) in
         let* transformed := lift (map_except transformed_secret items) in
         ret (JList transformed)
     else
       let* secrets :=
         run_podman_command cfg [py "secret"; py "ls"; py "--format"; py "json"] in
       if negb (json_truthy secrets) then ret (JList [])
       else ret secrets)
    (fun e => raise e).

Definition create_secret (cfg : Config) (secret : SecretCreate) (current_user : User) : Eff json :=
  let secret_name := stripped_name (name secret) in
  if bad_length secret_name then
    raise (HTTPException HTTP_400_BAD_REQUEST
             (py "Secret name must be between 1 and 253 characters") [])
  else if has_forbidden_char secret_name then
    raise (HTTPException HTTP_400_BAD_REQUEST
             (py "Secret name cannot contain '=', '/', ',' or NULL characters") [])
  else
    try_except
      (if USE_HTTP_API cfg then
         let params := [(py "name", secret_name)] in
         let* encoded_data := lift (b64encode_utf8 (data secret)) in
         let body :=
           JDict [(py "data", JStr encoded_data);
                  (py "driver", JDict [(py "name", json_of_optional (driver secret))])] in
         let* result :=
           http_api_request cfg (py "POST") (py "/secrets/create") params (Some body) in
         let* secret_id := lift (py_get result (py "ID") (JStr [])) in
         ret (JDict [(py "id", secret_id); (py "name", JStr secret_name);
                     (py "message", JStr (py "Secret created successfully"))])
       else
         let cmd := podman_cmd cfg ++ [py "secret"; py "create"; secret_name; py "-"] in
         let* r := popen_communicate cmd (Some (data secret)) in
         let '(returncode, stdout, stderr) := r in
         if negb (returncode =? 0) then
           raise (HTTPException HTTP_400_BAD_REQUEST
                    (py "Failed to create secret: " ++ stderr) [])
         else
           let secret_id := strip stdout in
           ret (JDict [(py "id", JStr secret_id); (py "name", JStr secret_name);
                       (py "message", JStr (py "Secret created successfully"))]))
      (fun e =>
         match e with
         | HTTPException _ _ _ => raise e
         | _ => raise (HTTPException HTTP_500_INTERNAL_SERVER_ERROR (exn_str e) [])
         end).

(** One turn of the loop of [create_bulk_secrets]. *)
Definition bulk_step (cfg : Config) (results : Results) (secret : SecretCreate) : Eff Results :=
  try_except
    (let secret_name := stripped_name (name secret) in
     if bad_length secret_name then
       ret (append_failed results (name secret) (py "Name must be 1-253 characters"))
     else if has_forbidden_char secret_name then
       ret (append_failed results (name secret) (py "Invalid characters in name"))
     else if USE_HTTP_API cfg then
       let params := [(py "name", secret_name)] in
       let* encoded_data := lift (b64encode_utf8 (data secret)) in
       let body :=
         JDict [(py "data", JStr encoded_data);
                (py "driver", JDict [(py "name", json_of_optional (driver secret))])] in
       let* result :=
         http_api_request cfg (py "POST") (py "/secrets/create") params (Some body) in
       let* secret_id := lift (py_get result (py "ID") (JStr [])) in
       ret (append_success results secret_id secret_name)
     else
       let cmd := podman_cmd cfg ++ [py "secret"; py "create"; secret_name; py "-"] in
       let* r := popen_communicate cmd (Some (data secret)) in
       let '(returncode, stdout, stderr) := r in
       if negb (returncode =? 0) then ret (append_failed results secret_name stderr)
       else
         let secret_id := strip stdout in
         ret (append_success results (JStr secret_id) secret_name))
    (fun e => ret (append_failed results (name secret) (exn_str e))).

Definition results_json (results : Results) : json :=
  JDict [(py "success", JList (success results)); (py "failed", JList (failed results))].

Definition create_bulk_secrets (cfg : Config) (bulk : BulkSecretCreate) (current_user : User) : Eff json :=
  let* results := for_each (bulk_step cfg) (secrets bulk) {| success := []; failed := [] |} in
  ret (results_json results).

Definition not_found (secret_id : str) : exn :=
  HTTPException HTTP_404_NOT_FOUND (py "Secret '" ++ secret_id ++ py "' not found") [].

Definition inspect_secret (cfg : Config) (secret_id : str) (current_user : User) : Eff json :=
  try_except
    (if USE_HTTP_API cfg then
       let* result :=
         http_api_request cfg (py "GET") (py "/secrets/" ++ secret_id ++ py "/json") [] None in
       if negb (json_truthy result) then raise (not_found secret_id)
       else
         let* id := lift (py_get result (py "ID") (JStr [])) in
         let* spec := lift (py_get result (py "Spec") (JDict [])) in
         let* nm := lift (py_get spec (py "Name") (JStr [])) in
         let* spec' := lift (py_get result (py "Spec") (JDict [])) in
         let* drv := lift (py_get spec' (py "Driver") (JDict [])) in
         let* drv_name := lift (py_get drv (py "Name") (JStr (py "file"))) in
         let* created := lift (py_get result (py "CreatedAt") (JStr [])) in
         let* updated := lift (py_get result (py "UpdatedAt") (JStr [])) in
         let* spec'' := lift (py_get result (py "Spec") (JDict [])) in
         ret (JDict [(py "ID", id); (py "Name", nm); (py "Driver", drv_name);
                     (py "CreatedAt", created); (py "UpdatedAt", updated);
                     (py "Spec", spec'')])
     else
       let* result := run_podman_command cfg [py "secret"; py "inspect"; secret_id] in
       if negb (json_truthy result) then raise (not_found secret_id)
       else
         let* n := lift (py_len result) in
         if (n =? 0)%nat then raise (not_found secret_id)
         else lift (py_item0 result))
    (fun e =>
       match e with
       | HTTPException _ _ _ => raise e
       | _ => raise (HTTPException HTTP_500_INTERNAL_SERVER_ERROR (exn_str e) [])
       end).

Definition deleted_message (secret_id : str) : json :=
  JDict [(py "message", JStr (py "Secret '" ++ secret_id ++ py "' deleted successfully"))].

Definition delete_secret (cfg : Config) (secret_id : str) (current_user : User) : Eff json :=
  try_except
    (if USE_HTTP_API cfg then
       let* _ := http_api_request cfg (py "DELETE") (py "/secrets/" ++ secret_id) [] None in
       ret (deleted_message secret_id)
     else
       let cmd := podman_cmd cfg ++ [py "secret"; py "rm"; secret_id] in
       let* _ := subprocess_run cmd in
       ret (deleted_message secret_id))
    (fun e =>
       match e with
       | CalledProcessError _ stderr =>
           raise (HTTPException HTTP_400_BAD_REQUEST
                    (py "Failed to delete secret: " ++ stderr) [])
       | HTTPException _ _ _ => raise e
       | _ => raise (HTTPException HTTP_500_INTERNAL_SERVER_ERROR (exn_str e) [])
       end).

Definition health_check (cfg : Config) : Eff json :=
  try_except
    (if USE_HTTP_API cfg then
       let* version_info := http_api_request cfg (py "GET") (py "/version") [] None in
       let* version := lift (py_get version_info (py "Version") (JStr (py "unknown"))) in
       ret (JDict [(py "podman_available", JBool true);
                   (py "version", version);
                   (py "host", JStr (str_or (PODMAN_HOST cfg) (py "default")));
                   (py "connection", JStr (str_or (PODMAN_CONNECTION cfg) (py "default")));
                   (py "mode", JStr (py "HTTP API"))])
     else
       let cmd := podman_cmd cfg ++ [py "version"; py "--format"; py "json"] in
       let* stdout := subprocess_run cmd in
       let* version_info := lift (json_loads stdout) in
       let* client := lift (py_get version_info (py "Client") (JDict [])) in
       let* version := lift (py_get client (py "Version") (JStr (py "unknown"))) in
       ret (JDict [(py "podman_available", JBool true);
                   (py "version", version);
                   (py "host", JStr (str_or (PODMAN_HOST cfg) (py "default")));
                   (py "connection", JStr (str_or (PODMAN_CONNECTION cfg) (py "default")));
                   (py "mode", JStr (py "CLI"))]))
    (fun e =>
       ret (JDict [(py "podman_available", JBool false); (py "error", JStr (exn_str e))])).

(** The responses of the two routes that declare a [response_model]. *)
Definition list_secrets_response (cfg : Config) (current_user : User) : Eff json :=
  let* r := list_secrets cfg current_user in
  lift (List_of SecretResponse r).

Definition inspect_secret_response (cfg : Config) (secret_id : str) (current_user : User) : Eff json :=
  let* r := inspect_secret cfg secret_id current_user in
  lift (SecretDetail r).

End Handlers.

(** ** Routing, and what the statements below speak about *)

Inductive operation : Type :=
| ListSecrets
| CreateSecret (secret : SecretCreate)
| CreateBulkSecrets (bulk : BulkSecretCreate)
| InspectSecret (secret_id : str)
| DeleteSecret (secret_id : str)
| HealthCheck.

(** The handler a request for [op] reaches. *)
Definition handle `{Runtime} (cfg : Config) (op : operation) (current_user : User) : Eff json :=
  match op with
  | ListSecrets => list_secrets_response cfg current_user
  | CreateSecret secret => create_secret cfg secret current_user
  | CreateBulkSecrets bulk => create_bulk_secrets cfg bulk current_user
  | InspectSecret secret_id => inspect_secret_response cfg secret_id current_user
  | DeleteSecret secret_id => delete_secret cfg secret_id current_user
  | HealthCheck => health_check cfg
  end.

(** The backend calls that running [m] from [st] adds to the log. *)
Definition calls_made `{Runtime} {A : Type} (m : Eff A) (st : St) : list event :=
  drop (length (calls st)) (calls (snd (m st))).

(** The backend an event went to agrees with the selection flag. *)
Definition uses_backend (use_http_api : bool) (ev : event) : Prop :=
  match ev with
  | HttpEvent _ _ => use_http_api = true
  | ProcEvent _ _ _ => use_http_api = false
  end.

(** A name is refused when it is empty, longer than 253 characters, or
    holds a forbidden character. *)
Definition name_refused (nm : str) : Prop :=
  nm = [] \/ (253 < length nm)%nat \/ exists c, In c forbidden_chars /\ In c nm.

(** A handler run answers 400 and leaves the log of backend calls as it
    was. *)
Definition rejected_before_backend `{Runtime} (m : Eff json) (st : St) : Prop :=
  (exists detail headers, fst (m st) = inl (HTTPException HTTP_400_BAD_REQUEST detail headers))
  /\ calls (snd (m st)) = calls st.

(** [ev] is a request to create a secret called [secret_name]: the name is
    the [name] query parameter of the API call, or the operand of
    [podman secret create]. *)
Definition create_call `{Runtime} (cfg : Config) (secret_name : str) (ev : event) : Prop :=
  match ev with
  | HttpEvent req _ =>
      method req = py "POST"
      /\ url req = format_api_url cfg ++ py "/v4.0.0/libpod" ++ py "/secrets/create"
      /\ params req = [(py "name", secret_name)]
  | ProcEvent argv _ _ =>
      argv = podman_cmd cfg ++ [py "secret"; py "create"; secret_name; py "-"]
  end.

(** A backend call came back with a result: the process exited with status
    0, or the API answered with a success status and a JSON object (an
    empty body counts as the empty object). *)
Definition call_succeeded `{Runtime} (ev : event) : bool :=
  match ev with
  | HttpEvent _ (Responded content) =>
      if str_truthy content
      then match json_loads content with inr (JDict _) => true | _ => false end
      else true
  | HttpEvent _ _ => false
  | ProcEvent _ _ (Exited returncode _ _) => returncode =? 0
  | ProcEvent _ _ (SpawnError _) => false
  end.

(** The name checks of the two create handlers, on the name as sent. *)
Definition name_ok (secret : SecretCreate) : bool :=
  negb (bad_length (stripped_name (name secret)))
  && negb (has_forbidden_char (stripped_name (name secret))).

(** ** One secret as each backend reports it *)

Record secret_info : Type := {
  info_ID : str;
  info_Name : str;
  info_Driver : str;
  info_CreatedAt : str;
  info_UpdatedAt : str;
  info_Spec : list (str * json)
}.

(** The remote API nests the name and the driver name inside [Spec]. *)
Definition remote_reports (raw : json) (x : secret_info) : Prop :=
  exists d drv,
    raw = JDict d
    /\ dict_lookup (py "ID") d = Some (JStr (info_ID x))
    /\ dict_lookup (py "Spec") d = Some (JDict (info_Spec x))
    /\ dict_lookup (py "Name") (info_Spec x) = Some (JStr (info_Name x))
    /\ dict_lookup (py "Driver") (info_Spec x) = Some (JDict drv)
    /\ dict_lookup (py "Name") drv = Some (JStr (info_Driver x))
    /\ dict_lookup (py "CreatedAt") d = Some (JStr (info_CreatedAt x))
    /\ dict_lookup (py "UpdatedAt") d = Some (JStr (info_UpdatedAt x)).

(** The local command reports the flat fields ([with_spec]: also the
    [Spec] object, as an inspection does). *)
Definition local_reports (with_spec : bool) (raw : json) (x : secret_info) : Prop :=
  exists d,
    raw = JDict d
    /\ dict_lookup (py "ID") d = Some (JStr (info_ID x))
    /\ dict_lookup (py "Name") d = Some (JStr (info_Name x))
    /\ dict_lookup (py "Driver") d = Some (JStr (info_Driver x))
    /\ dict_lookup (py "CreatedAt") d = Some (JStr (info_CreatedAt x))
    /\ dict_lookup (py "UpdatedAt") d = Some (JStr (info_UpdatedAt x))
    /\ (with_spec = true -> dict_lookup (py "Spec") d = Some (JDict (info_Spec x))).

(** The canonical shapes. *)
Definition canonical_summary (x : secret_info) : json :=
  JDict [(py "ID", JStr (info_ID x)); (py "Name", JStr (info_Name x));
         (py "Driver", JStr (info_Driver x));
         (py "CreatedAt", JStr (info_CreatedAt x));
         (py "UpdatedAt", JStr (info_UpdatedAt x))].

Definition canonical_detail (x : secret_info) : json :=
  JDict [(py "ID", JStr (info_ID x)); (py "Name", JStr (info_Name x));
         (py "Driver", JStr (info_Driver x));
         (py "CreatedAt", JStr (info_CreatedAt x));
         (py "UpdatedAt", JStr (info_UpdatedAt x));
         (py "Spec", JDict (info_Spec x))].

(** ** A scripted Podman, for running the handlers on concrete inputs

    The world is the list of answers still to come, one list per
    transport; a call consumes the next answer, and finds the service
    unreachable when none is left. Documents are decoded by table. *)

Definition quoted (s : string) : str := [34%N] ++ py s ++ [34%N].
Arguments quoted s%_string.

Definition sample_exn_str (e : exn) : str :=
  match e with
  | HTTPException _ detail _ => detail
  | HTTPStatusError _ text => text
  | CalledProcessError _ stderr => stderr
  | JSONDecodeError doc => doc
  | FileNotFoundError msg | AttributeError msg | TypeError msg | KeyError msg
  | IndexError msg | ResponseValidationError msg | UnicodeEncodeError msg
  | OtherError msg => msg
  end.

Definition scripted (documents : list (str * json)) : Runtime :=
  {| World := list http_outcome * list proc_outcome;
     http_send := fun _ w =>
       match fst w with
       | out :: rest => (out, (rest, snd w))
       | [] => (RequestError (OtherError (py "connection refused")), w)
       end;
     run_process := fun _ _ w =>
       match snd w with
       | out :: rest => (out, (fst w, rest))
       | [] => (SpawnError (FileNotFoundError (py "podman")), w)
       end;
     json_loads := fun doc =>
       match dict_lookup doc documents with
       | Some v => inr v
       | None => inl (JSONDecodeError doc)
       end;
     exn_str := sample_exn_str |}.

Definition sample_user : User :=
  {| database.id := 1;
     database.username := py "admin";
     database.hashed_password := py "salt$admin";
     database.created_at := 0;
     database.updated_at := 0 |}.

Definition cli_config : Config := load_config ∅.

Definition api_config : Config := load_config {[ "PODMAN_HOST"%string := py "tcp://localhost:8080" ]}.

(** A toy password scheme for running the authentication endpoints: the
    hash is the salt, a dollar sign and the password. *)
Fixpoint after_dollar (hashed : str) : str :=
  match hashed with
  | [] => []
  | c :: rest => if (c =? 36)%N then rest else after_dollar rest
  end.

Definition sample_auth : Auth :=
  {| Salt := str;
     verify_password := fun plain hashed => str_eqb (after_dollar hashed) plain;
     get_password_hash := fun salt plain => salt ++ py "$" ++ plain;
     create_access_token := fun sub minutes now => py "token-for-" ++ sub;
     ACCESS_TOKEN_EXPIRE_MINUTES := 30 |}.

Definition sample_db : gmap str User := {[ py "admin" := sample_user ]}.

(** What the [except] clauses of [http_api_request] raise for [e]. *)
Definition api_failure `{Runtime} (e : exn) : exn :=
  match e with
  | HTTPStatusError code text => HTTPException code (py "Podman API error: " ++ text) []
  | _ =>
      HTTPException HTTP_500_INTERNAL_SERVER_ERROR
        (py "Failed to connect to Podman API: " ++ exn_str e) []
  end.

(** What [http_api_request] makes of the client's outcome. *)
Definition api_result `{Runtime} (out : http_outcome) : exn + json :=
  match out with
  | Responded content =>
      if str_truthy content
      then match json_loads content with
           | inr v => inr v
           | inl e => inl (api_failure e)
           end
      else inr (JDict [])
  | StatusError code text => inl (api_failure (HTTPStatusError code text))
  | RequestError e => inl (api_failure e)
  end.

(** What [subprocess.run(..., check=True)] makes of the process outcome. *)
Definition run_result (out : proc_outcome) : exn + str :=
  match out with
  | Exited returncode stdout stderr =>
      if returncode =? 0 then inr stdout else inl (CalledProcessError returncode stderr)
  | SpawnError e => inl e
  end.

(** What the [except] clauses of [run_podman_command] raise for [e]. *)
Definition podman_failure (e : exn) : exn :=
  match e with
  | CalledProcessError _ stderr =>
      HTTPException HTTP_500_INTERNAL_SERVER_ERROR (py "Podman error: " ++ stderr) []
  | JSONDecodeError _ =>
      HTTPException HTTP_500_INTERNAL_SERVER_ERROR (py "Failed to parse Podman output") []
  | FileNotFoundError _ =>
      HTTPException HTTP_500_INTERNAL_SERVER_ERROR
        (py "Podman is not installed or not in PATH") []
  | _ => e
  end.

(** What [run_podman_command] makes of the process outcome. *)
Definition podman_result `{Runtime} (out : proc_outcome) : exn + json :=
  match run_result out with
  | inr stdout =>
      if str_truthy (strip stdout)
      then match json_loads stdout with
           | inr v => inr v
           | inl e => inl (podman_failure e)
           end
      else inr (JDict [])
  | inl e => inl (podman_failure e)
  end.

Definition secret_named (nm : string) : SecretCreate :=
  {| name := py nm; data := py "s3cret"; driver := Some (py "file") |}.
Arguments secret_named nm%_string.

(** An entry whose data is the lone surrogate U+D800, which a JSON
    request body delivers as the escape [\ud800]. *)
Definition surrogate_secret (nm : string) : SecretCreate :=
  {| name := py nm; data := [55296%N]; driver := Some (py "file") |}.
Arguments surrogate_secret nm%_string.

(** The body the remote API answers a create with, and a body that is a
    JSON array. *)
Definition created_text : str := py "{" ++ quoted "ID" ++ py ":" ++ quoted "id2" ++ py "}".

Definition created_documents : list (str * json) :=
  [(created_text, JDict [(py "ID", JStr (py "id2"))]);
   (py "[]", JList [])].

(** The body the remote API answers the version request with. *)
Definition version_text : str :=
  py "{" ++ quoted "Version" ++ py ":" ++ quoted "4.9.3" ++ py "}".

Definition version_documents : list (str * json) :=
  [(version_text, JDict [(py "Version", JStr (py "4.9.3"))])].

(** A line of output: the text and a line feed. *)
Definition line (s : string) : str := py s ++ [10%N].
Arguments line s%_string.

(** JSON text, for the documents the sample backends send. *)
Fixpoint join (sep : str) (parts : list str) : str :=
  match parts with
  | [] => []
  | [part] => part
  | part :: rest => part ++ sep ++ join sep rest
  end.

Definition json_member (key : string) (value : str) : str := quoted key ++ py ": " ++ value.
Arguments json_member key%_string value.

Definition json_object (members : list str) : str := py "{" ++ join (py ", ") members ++ py "}".

Definition json_array (items : list str) : str := py "[" ++ join (py ", ") items ++ py "]".

(** One secret, as the remote API prints it and as the local command
    prints it (listing, then inspection). *)
Definition remote_text : str :=
  json_object
    [json_member "ID" (quoted "abc123");
     json_member "Spec"
       (json_object
          [json_member "Name" (quoted "db_password");
           json_member "Driver" (json_object [json_member "Name" (quoted "file")])]);
     json_member "CreatedAt" (quoted "2024-05-01T10:00:00Z");
     json_member "UpdatedAt" (quoted "2024-05-02T08:30:00Z")].

Definition remote_value : json :=
  JDict [(py "ID", JStr (py "abc123"));
         (py "Spec",
          JDict [(py "Name", JStr (py "db_password"));
                 (py "Driver", JDict [(py "Name", JStr (py "file"))])]);
         (py "CreatedAt", JStr (py "2024-05-01T10:00:00Z"));
         (py "UpdatedAt", JStr (py "2024-05-02T08:30:00Z"))].

Definition local_text (with_spec : bool) : str :=
  json_object
    ([json_member "ID" (quoted "abc123");
      json_member "Name" (quoted "db_password");
      json_member "Driver" (quoted "file");
      json_member "CreatedAt" (quoted "2024-05-01T10:00:00Z");
      json_member "UpdatedAt" (quoted "2024-05-02T08:30:00Z")]
     ++ (if with_spec
         then [json_member "Spec"
                 (json_object
                    [json_member "Name" (quoted "db_password");
                     json_member "Driver" (json_object [json_member "Name" (quoted "file")])])]
         else [])).

Definition local_value (with_spec : bool) : json :=
  JDict ([(py "ID", JStr (py "abc123"));
          (py "Name", JStr (py "db_password"));
          (py "Driver", JStr (py "file"));
          (py "CreatedAt", JStr (py "2024-05-01T10:00:00Z"));
          (py "UpdatedAt", JStr (py "2024-05-02T08:30:00Z"))]
         ++ (if with_spec
             then [(py "Spec",
                    JDict [(py "Name", JStr (py "db_password"));
                           (py "Driver", JDict [(py "Name", JStr (py "file"))])])]
             else [])).

Definition sample_info : secret_info :=
  {| info_ID := py "abc123";
     info_Name := py "db_password";
     info_Driver := py "file";
     info_CreatedAt := py "2024-05-01T10:00:00Z";
     info_UpdatedAt := py "2024-05-02T08:30:00Z";
     info_Spec := [(py "Name", JStr (py "db_password"));
                   (py "Driver", JDict [(py "Name", JStr (py "file"))])] |}.

Definition sample_documents : list (str * json) :=
  [(json_array [remote_text], JList [remote_value]);
   (remote_text, remote_value);
   (json_array [local_text false] ++ [10%N], JList [local_value false]);
   (json_array [local_text true] ++ [10%N], JList [local_value true])].

(** An entry is sent to the backend: its name passes the checks and, for
    the remote API, its data can be encoded. *)
Definition dispatched (cfg : Config) (secret : SecretCreate) : bool :=
  name_ok secret
  && (negb (USE_HTTP_API cfg)
      || match utf8_encode (data secret) with inr _ => true | inl _ => false end).

(** The loop of [create_bulk_secrets] as a relation: from the entries
    still to process and the results so far, to the backend calls made
    and the final results. An entry that is not sent (refused name, or
    data that cannot be encoded) adds a failure under its name as sent
    and no call; any other entry makes one call, and adds a success when
    the call came back with a result and a failure when it did not. *)
Inductive bulk_run `{Runtime} (cfg : Config) : list SecretCreate -> Results -> list event -> Results -> Prop :=
| bulk_done results :
    bulk_run cfg [] results [] results
| bulk_refused secret rest results error evs final :
    dispatched cfg secret = false ->
    bulk_run cfg rest (append_failed results (name secret) error) evs final ->
    bulk_run cfg (secret :: rest) results evs final
| bulk_created secret rest results ev secret_id evs final :
    dispatched cfg secret = true ->
    create_call cfg (strip (name secret)) ev ->
    uses_backend (USE_HTTP_API cfg) ev ->
    call_succeeded ev = true ->
    bulk_run cfg rest (append_success results secret_id (strip (name secret))) evs final ->
    bulk_run cfg (secret :: rest) results (ev :: evs) final
| bulk_failed secret rest results ev nm error evs final :
    dispatched cfg secret = true ->
    create_call cfg (strip (name secret)) ev ->
    uses_backend (USE_HTTP_API cfg) ev ->
    call_succeeded ev = false ->
    bulk_run cfg rest (append_failed results nm error) evs final ->
    bulk_run cfg (secret :: rest) results (ev :: evs) final.

Definition scripted_state (documents : list (str * json))
    (https : list http_outcome) (procs : list proc_outcome) : @St (scripted documents) :=
  @Build_St (scripted documents) (https, procs) [].

(** The answer to a health check holds every field of
    [{podman_available, version|error, host, connection, mode}]. *)
Definition has_health_fields (v : json) : Prop :=
  exists d,
    v = JDict d
    /\ dict_lookup (py "podman_available") d <> None
    /\ (dict_lookup (py "version") d <> None \/ dict_lookup (py "error") d <> None)
    /\ dict_lookup (py "host") d <> None
    /\ dict_lookup (py "connection") d <> None
    /\ dict_lookup (py "mode") d <> None.

(** [m] makes one call, to the backend the configuration selects. *)
Definition one_call `{Runtime} {A : Type} (cfg : Config) (m : Eff A) : Prop :=
  forall st, exists ev w,
    snd (m st) = log_call st w ev /\ uses_backend (USE_HTTP_API cfg) ev.

(** The remote API answers a GET on [endpoint] with a document that
    decodes to [v]. *)
Definition remote_answers `{Runtime} (cfg : Config) (endpoint : str) (st : St) (v : json) : Prop :=
  exists content,
    fst (http_send (api_request cfg (py "GET") endpoint [] None) (world st)) = Responded content
    /\ str_truthy content = true
    /\ json_loads content = inr v.

(** The local command, run with [args], exits with status 0 and prints a
    document that decodes to [v]. *)
Definition local_answers `{Runtime} (cfg : Config) (args : list str) (st : St) (v : json) : Prop :=
  exists stdout stderr,
    fst (run_process (podman_cmd cfg ++ args) None (world st)) = Exited 0 stdout stderr
    /\ str_truthy (strip stdout) = true
    /\ json_loads stdout = inr v.

(** ** Vocabulary for the remaining handlers *)

(** The state after one HTTP request, and after one child process. *)
Definition after_http `{Runtime} (st : St) (req : http_request) : St :=
  log_call st (snd (http_send req (world st))) (HttpEvent req (fst (http_send req (world st)))).

Definition after_proc `{Runtime} (st : St) (cmd : list str) (input : option str) : St :=
  log_call st (snd (run_process cmd input (world st)))
    (ProcEvent cmd input (fst (run_process cmd input (world st)))).

(** A handler result FastAPI can answer as it stands: a value, or an
    [HTTPException]. *)
Definition structured {A : Type} (r : exn + A) : Prop :=
  match r with
  | inr _ => True
  | inl (HTTPException _ _ _) => True
  | inl _ => False
  end.

(** [d.get(key, default)] on the entries of a dictionary. *)
Definition get_or (d : list (str * json)) (key : str) (default : json) : json :=
  match dict_lookup key d with
  | Some v => v
  | None => default
  end.

(** The request and the command the two create handlers build for an
    entry. *)
Definition create_request `{Runtime} (cfg : Config) (secret : SecretCreate)
    (encoded_data : str) : http_request :=
  api_request cfg (py "POST") (py "/secrets/create")
    [(py "name", strip (name secret))]
    (Some (JDict [(py "data", JStr encoded_data);
                  (py "driver", JDict [(py "name", json_of_optional (driver secret))])])).

Definition create_command (cfg : Config) (secret : SecretCreate) : list str :=
  podman_cmd cfg ++ [py "secret"; py "create"; strip (name secret); py "-"].

(** The body [create_secret] returns, and the entry the bulk loop adds. *)
Definition created_message (secret_id : json) (secret_name : str) : json :=
  JDict [(py "id", secret_id); (py "name", JStr secret_name);
         (py "message", JStr (py "Secret created successfully"))].

Definition success_entry (chosen : json * SecretCreate) : json :=
  JDict [(py "id", fst chosen); (py "name", JStr (strip (name (snd chosen))))].

(** The two response shapes: exactly these fields, all strings ([Spec] a
    dictionary). *)
Definition summary_shape (v : json) : Prop :=
  exists id nm drv created updated,
    v = JDict [(py "ID", JStr id); (py "Name", JStr nm); (py "Driver", JStr drv);
               (py "CreatedAt", JStr created); (py "UpdatedAt", JStr updated)].

Definition detail_shape (v : json) : Prop :=
  exists id nm drv created updated spec,
    v = JDict [(py "ID", JStr id); (py "Name", JStr nm); (py "Driver", JStr drv);
               (py "CreatedAt", JStr created); (py "UpdatedAt", JStr updated);
               (py "Spec", JDict spec)].

(** A name fit to be sent: not empty, at most 253 characters, free of
    forbidden characters, with no white space at either end. *)
Definition sendable (nm : str) : Prop :=
  nm <> []
  /\ (length nm <= 253)%nat
  /\ (forall c, In c forbidden_chars -> ~ In c nm)
  /\ (forall c, head nm = Some c -> isspace c = false)
  /\ (forall c, last nm = Some c -> isspace c = false).

(** A remote listing that holds a bare string where an object is due. *)
Definition names_only_documents : list (str * json) :=
  [(json_array [quoted "abc123"], JList [JStr (py "abc123")])].

(** The backend answered the version request: the remote API with a
    success status and an empty body or a JSON object; the local command
    with exit status 0 and a JSON object whose [Client], when present, is
    an object. [version] is the version it reported ([unknown] when it
    named none). *)
Definition backend_answered `{Runtime} (cfg : Config) (st : St) (version : json) : Prop :=
  if USE_HTTP_API cfg then
    exists content info,
      fst (http_send (api_request cfg (py "GET") (py "/version") [] None) (world st))
      = Responded content
      /\ (content = [] /\ info = [] \/ content <> [] /\ json_loads content = inr (JDict info))
      /\ version = get_or info (py "Version") (JStr (py "unknown"))
  else
    exists stdout stderr info client,
      fst (run_process (podman_cmd cfg ++ [py "version"; py "--format"; py "json"]) None
             (world st))
      = Exited 0 stdout stderr
      /\ json_loads stdout = inr (JDict info)
      /\ get_or info (py "Client") (JDict []) = JDict client
      /\ version = get_or client (py "Version") (JStr (py "unknown")).

(** * Properties *)

(** ** The helpers on small inputs *)

Example strip_ex1 : strip (py "  db pass ") = py "db pass".
Proof. reflexivity. Qed.

Example strip_ex2 : strip (py "   ") = [].
Proof. reflexivity. Qed.

Example replace_ex : replace (py "tcp://h:8080") (py "tcp://") (py "http://") = py "http://h:8080".
Proof. reflexivity. Qed.

Example forbidden_ex : has_forbidden_char (py "a/b") = true /\ has_forbidden_char (py "a-b") = false.
Proof. split; reflexivity. Qed.

Example b64_ex1 : b64encode_utf8 (py "hello") = inr (py "aGVsbG8=").
Proof. reflexivity. Qed.

Example b64_ex2 : b64encode_utf8 (py "hi") = inr (py "aGk=") /\ b64encode_utf8 (py "abc") = inr (py "YWJj").
Proof. split; reflexivity. Qed.

Example b64_ex3 : b64encode_utf8 [233%N; 8364%N] = inr (py "w6nigqw=").
Proof. reflexivity. Qed.

Example cli_config_ex :
  USE_HTTP_API cli_config = false
  /\ podman_cmd cli_config = [py "podman"; py "--connection"; py "my-tcp"].
Proof. split; reflexivity. Qed.

Example api_config_ex :
  USE_HTTP_API api_config = true
  /\ PODMAN_API_URL api_config = Some (py "http://localhost:8080").
Proof. split; reflexivity. Qed.

Section Basics.

Lemma stripped_name_strip (nm : str) : stripped_name nm = strip nm.
Proof. destruct nm; reflexivity. Qed.

Lemma bad_length_spec (s : str) :
  bad_length s = true <-> s = [] \/ (253 < length s)%nat.
Proof.
  unfold bad_length. rewrite !orb_true_iff, negb_true_iff, !Nat.ltb_lt.
  destruct s as [|c s]; simpl; split; intros Hs.
  - now left.
  - now left; left.
  - destruct Hs as [[Hs|Hs]|Hs]; [discriminate | lia | now right].
  - destruct Hs as [Hs|Hs]; [discriminate | now right].
Qed.

Lemma char_in_spec (c : char) (s : str) : char_in c s = true <-> In c s.
Proof.
  unfold char_in. rewrite existsb_exists. split.
  - intros (x & Hx & Heq). apply N.eqb_eq in Heq. now subst.
  - intros Hc. exists c. split; [assumption | apply N.eqb_refl].
Qed.

Lemma has_forbidden_char_spec (s : str) :
  has_forbidden_char s = true <-> exists c, In c forbidden_chars /\ In c s.
Proof.
  unfold has_forbidden_char. rewrite existsb_exists.
  split; intros (c & Hc & Hs); exists c; split; try assumption;
    now apply char_in_spec.
Qed.

Lemma name_ok_refused (secret : SecretCreate) :
  name_ok secret = false <-> name_refused (strip (name secret)).
Proof.
  unfold name_ok, name_refused. rewrite stripped_name_strip.
  rewrite andb_false_iff, !negb_false_iff, bad_length_spec, has_forbidden_char_spec.
  tauto.
Qed.

End Basics.

(** ** Each transport function is one backend call and a pure reading of
    its outcome *)

Section TransportFacts.
Context `{Runtime}.

Lemma http_api_request_run cfg me ep ps b st :
  let req := api_request cfg me ep ps b in
  http_api_request cfg me ep ps b st =
    (api_result (fst (http_send req (world st))),
     log_call st (snd (http_send req (world st)))
       (HttpEvent req (fst (http_send req (world st))))).
Proof.
  intros req. unfold http_api_request, try_except, bind, client_request. fold req.
  destruct (http_send req (world st)) as [out w]. simpl.
  destruct out as [content|code text|e]; simpl.
  - destruct (str_truthy content); [destruct (json_loads content) as [[]|]|]; reflexivity.
  - reflexivity.
  - destruct e; reflexivity.
Qed.

Lemma popen_communicate_run cmd input st :
  popen_communicate cmd input st =
    (match fst (run_process cmd input (world st)) with
     | Exited code stdout stderr => inr (code, stdout, stderr)
     | SpawnError e => inl e
     end,
     log_call st (snd (run_process cmd input (world st)))
       (ProcEvent cmd input (fst (run_process cmd input (world st))))).
Proof.
  unfold popen_communicate.
  destruct (run_process cmd input (world st)) as [out w]. simpl.
  destruct out; reflexivity.
Qed.

Lemma subprocess_run_run cmd st :
  subprocess_run cmd st =
    (run_result (fst (run_process cmd None (world st))),
     log_call st (snd (run_process cmd None (world st)))
       (ProcEvent cmd None (fst (run_process cmd None (world st))))).
Proof.
  unfold subprocess_run, bind. rewrite popen_communicate_run.
  destruct (run_process cmd None (world st)) as [out w]. simpl.
  destruct out as [code stdout stderr|e]; simpl; [destruct (code =? 0)|]; reflexivity.
Qed.

Lemma run_podman_command_run cfg args st :
  let cmd := podman_cmd cfg ++ args in
  run_podman_command cfg args st =
    (podman_result (fst (run_process cmd None (world st))),
     log_call st (snd (run_process cmd None (world st)))
       (ProcEvent cmd None (fst (run_process cmd None (world st))))).
Proof.
  intros cmd. unfold run_podman_command, try_except, bind. fold cmd.
  rewrite subprocess_run_run. unfold podman_result.
  destruct (run_process cmd None (world st)) as [out w]. simpl.
  destruct out as [code stdout stderr|e]; simpl.
  - destruct (code =? 0); simpl; [|reflexivity].
    destruct (str_truthy (strip stdout)); [destruct (json_loads stdout) as [[]|]|]; reflexivity.
  - destruct e; reflexivity.
Qed.

Lemma calls_log_call st w ev : calls (log_call st w ev) = calls st ++ [ev].
Proof. reflexivity. Qed.

Lemma drop_calls_app (l evs : list event) : drop (length l) (l ++ evs) = evs.
Proof. induction l; simpl; auto. Qed.

End TransportFacts.

(** ** The create handlers: refused or unsent without a call, or exactly
    one call *)

Section CreateFacts.
Context `{Runtime}.

Lemma name_ok_true (secret : SecretCreate) :
  name_ok secret = true ->
  bad_length (stripped_name (name secret)) = false
  /\ has_forbidden_char (stripped_name (name secret)) = false.
Proof.
  unfold name_ok. rewrite andb_true_iff, !negb_true_iff. tauto.
Qed.

Lemma name_ok_false (secret : SecretCreate) :
  name_ok secret = false ->
  bad_length (stripped_name (name secret)) = true
  \/ bad_length (stripped_name (name secret)) = false
     /\ has_forbidden_char (stripped_name (name secret)) = true.
Proof.
  unfold name_ok.
  destruct (bad_length _), (has_forbidden_char _); simpl; intros; try discriminate; tauto.
Qed.

Lemma utf8_encode_error (s : str) (e : exn) :
  utf8_encode s = inl e -> exists msg, e = UnicodeEncodeError msg.
Proof.
  unfold utf8_encode. destruct (existsb is_surrogate s); [|discriminate].
  intros [= <-]. eauto.
Qed.

Lemma dispatched_true cfg secret :
  dispatched cfg secret = true ->
  name_ok secret = true
  /\ (USE_HTTP_API cfg = false \/ exists bytes, utf8_encode (data secret) = inr bytes).
Proof.
  unfold dispatched. rewrite andb_true_iff, orb_true_iff, negb_true_iff.
  intros [Hok [Huse | Henc]]; split; try assumption; [now left|].
  right. destruct (utf8_encode (data secret)); [discriminate | eauto].
Qed.

Lemma dispatched_false cfg secret :
  dispatched cfg secret = false ->
  name_ok secret = false
  \/ (name_ok secret = true
      /\ USE_HTTP_API cfg = true
      /\ exists e, utf8_encode (data secret) = inl e).
Proof.
  unfold dispatched. destruct (name_ok secret); [|now left]. simpl.
  destruct (USE_HTTP_API cfg); simpl; [|discriminate].
  destruct (utf8_encode (data secret)) as [e|bytes]; [|discriminate].
  intros _. right. eauto.
Qed.

Lemma name_refused_not_dispatched cfg secret :
  name_ok secret = false -> dispatched cfg secret = false.
Proof. unfold dispatched. now intros ->. Qed.

Lemma create_secret_refused cfg secret user st :
  name_ok secret = false ->
  exists detail,
    create_secret cfg secret user st = (inl (HTTPException HTTP_400_BAD_REQUEST detail []), st).
Proof.
  intros Hbad. unfold create_secret.
  destruct (name_ok_false _ Hbad) as [Hlen | [Hlen Hch]]; rewrite Hlen; [|rewrite Hch];
    eexists; reflexivity.
Qed.

Lemma create_secret_unsent cfg secret user st e :
  name_ok secret = true ->
  USE_HTTP_API cfg = true ->
  utf8_encode (data secret) = inl e ->
  create_secret cfg secret user st
  = (inl (HTTPException HTTP_500_INTERNAL_SERVER_ERROR (exn_str e) []), st).
Proof.
  intros Hok Huse Henc. destruct (name_ok_true _ Hok) as [Hlen Hch].
  destruct (utf8_encode_error _ _ Henc) as [msg ->].
  unfold create_secret. rewrite Hlen, Hch, Huse.
  unfold try_except, bind, b64encode_utf8. rewrite Henc. reflexivity.
Qed.

Lemma create_secret_not_dispatched cfg secret user st :
  dispatched cfg secret = false -> snd (create_secret cfg secret user st) = st.
Proof.
  intros Hd. destruct (dispatched_false _ _ Hd) as [Hbad | (Hok & Huse & e & Henc)].
  - destruct (create_secret_refused cfg secret user st Hbad) as [detail ->]. reflexivity.
  - now rewrite (create_secret_unsent cfg secret user st e Hok Huse Henc).
Qed.

Lemma create_secret_dispatched cfg secret user st :
  dispatched cfg secret = true ->
  exists ev w,
    snd (create_secret cfg secret user st) = log_call st w ev
    /\ create_call cfg (strip (name secret)) ev
    /\ uses_backend (USE_HTTP_API cfg) ev.
Proof.
  intros Hd. destruct (dispatched_true _ _ Hd) as [Hok Hsend].
  destruct (name_ok_true _ Hok) as [Hlen Hch].
  unfold create_secret. rewrite Hlen, Hch, stripped_name_strip.
  unfold try_except, bind. destruct (USE_HTTP_API cfg) eqn:Huse.
  - destruct Hsend as [Hcli | [bytes Henc]]; [discriminate|].
    unfold b64encode_utf8. rewrite Henc. cbn [lift ret].
    rewrite http_api_request_run. simpl.
    eexists. eexists. split.
    + destruct (api_result _) as [e|result]; simpl.
      * destruct e; reflexivity.
      * destruct (py_get result _ _) as [e|v]; simpl; [destruct e|]; reflexivity.
    + simpl. repeat split.
  - rewrite popen_communicate_run.
    destruct (run_process _ _ _) as [[code out err|e] w]; simpl;
      eexists; eexists; split.
    + destruct (code =? 0); reflexivity.
    + simpl. repeat split.
    + destruct e; reflexivity.
    + simpl. repeat split.
Qed.

End CreateFacts.

(** ** The bulk loop *)

Section BulkFacts.
Context `{Runtime}.

Lemma bulk_step_refused cfg results secret st :
  name_ok secret = false ->
  exists error,
    bulk_step cfg results secret st = (inr (append_failed results (name secret) error), st).
Proof.
  intros Hbad. unfold bulk_step, try_except.
  destruct (name_ok_false _ Hbad) as [Hlen | [Hlen Hch]]; rewrite Hlen; [|rewrite Hch];
    eexists; reflexivity.
Qed.

Lemma bulk_step_unsent cfg results secret st e :
  name_ok secret = true ->
  USE_HTTP_API cfg = true ->
  utf8_encode (data secret) = inl e ->
  bulk_step cfg results secret st
  = (inr (append_failed results (name secret) (exn_str e)), st).
Proof.
  intros Hok Huse Henc. destruct (name_ok_true _ Hok) as [Hlen Hch].
  unfold bulk_step. rewrite Hlen, Hch, Huse.
  unfold try_except, bind, b64encode_utf8. rewrite Henc. reflexivity.
Qed.

Lemma bulk_step_not_dispatched cfg results secret st :
  dispatched cfg secret = false ->
  exists error,
    bulk_step cfg results secret st = (inr (append_failed results (name secret) error), st).
Proof.
  intros Hd. destruct (dispatched_false _ _ Hd) as [Hbad | (Hok & Huse & e & Henc)].
  - now apply bulk_step_refused.
  - exists (exn_str e). now apply bulk_step_unsent.
Qed.

Lemma bulk_step_dispatched cfg results secret st :
  dispatched cfg secret = true ->
  exists ev w,
    create_call cfg (strip (name secret)) ev
    /\ uses_backend (USE_HTTP_API cfg) ev
    /\ (call_succeeded ev = true
        /\ (exists secret_id,
              bulk_step cfg results secret st =
                (inr (append_success results secret_id (strip (name secret))),
                 log_call st w ev))
        \/ call_succeeded ev = false
           /\ (exists nm error,
                 bulk_step cfg results secret st =
                   (inr (append_failed results nm error), log_call st w ev))).
Proof.
  intros Hd. destruct (dispatched_true _ _ Hd) as [Hok Hsend].
  destruct (name_ok_true _ Hok) as [Hlen Hch].
  unfold bulk_step. rewrite Hlen, Hch, stripped_name_strip.
  unfold try_except, bind. destruct (USE_HTTP_API cfg) eqn:Huse.
  - destruct Hsend as [Hcli | [bytes Henc]]; [discriminate|].
    unfold b64encode_utf8. rewrite Henc. cbn [lift ret].
    rewrite http_api_request_run. simpl.
    destruct (http_send _ _) as [out w]. simpl.
    exists (HttpEvent (api_request cfg (py "POST") (py "/secrets/create")
                         [(py "name", strip (name secret))]
                         (Some (JDict [(py "data", JStr (b64encode bytes));
                                       (py "driver", JDict [(py "name", json_of_optional (driver secret))])])))
              out), w.
    split; [simpl; repeat split|]. split; [exact eq_refl|].
    destruct out as [content|code text|e]; simpl.
    + destruct (str_truthy content); simpl.
      * destruct (json_loads content) as [e|[]]; simpl; eauto 6.
      * eauto 6.
    + eauto 6.
    + eauto 6.
  - rewrite popen_communicate_run.
    destruct (run_process _ _ _) as [o w]. simpl.
    exists (ProcEvent (podman_cmd cfg ++ [py "secret"; py "create"; strip (name secret); py "-"])
              (Some (data secret)) o), w.
    split; [exact eq_refl|]. split; [exact eq_refl|].
    destruct o as [code out err|e]; simpl.
    + destruct (code =? 0); simpl; eauto 6.
    + eauto 6.
Qed.

Lemma for_each_bulk_step cfg entries :
  forall results st,
  exists final st' evs,
    for_each (bulk_step cfg) entries results st = (inr final, st')
    /\ calls st' = calls st ++ evs
    /\ bulk_run cfg entries results evs final.
Proof.
  induction entries as [|secret rest IH]; intros results st; simpl.
  - exists results, st, []. rewrite app_nil_r. repeat split. constructor.
  - unfold bind. destruct (dispatched cfg secret) eqn:Hok.
    + destruct (bulk_step_dispatched cfg results secret st Hok)
        as (ev & w & Hcall & Huse & [[Hs [sid Hrun]] | [Hs (nm & err & Hrun)]]);
        rewrite Hrun;
        match goal with
        | |- context [for_each _ rest ?r ?s] => destruct (IH r s) as (final & st' & evs & Hfor & Hcalls & Hrel)
        end;
        exists final, st', (ev :: evs); rewrite Hfor, Hcalls; simpl;
        rewrite <- app_assoc; (split; [reflexivity|]); (split; [reflexivity|]).
      * eapply bulk_created; eassumption.
      * eapply bulk_failed; eassumption.
    + destruct (bulk_step_not_dispatched cfg results secret st Hok) as [err Hrun]. rewrite Hrun.
      destruct (IH (append_failed results (name secret) err) st)
        as (final & st' & evs & Hfor & Hcalls & Hrel).
      exists final, st', evs. rewrite Hfor. repeat split; try assumption.
      eapply bulk_refused; eassumption.
Qed.

Lemma create_bulk_secrets_run cfg bulk user st :
  exists final st' evs,
    create_bulk_secrets cfg bulk user st = (inr (results_json final), st')
    /\ calls st' = calls st ++ evs
    /\ bulk_run cfg (secrets bulk) {| success := []; failed := [] |} evs final.
Proof.
  unfold create_bulk_secrets, bind.
  destruct (for_each_bulk_step cfg (secrets bulk) {| success := []; failed := [] |} st)
    as (final & st' & evs & Hfor & Hcalls & Hrel).
  rewrite Hfor. exists final, st', evs. repeat split; assumption.
Qed.


Lemma calls_made_eq {A : Type} (m : Eff A) (st : St) (evs : list event) :
  calls (snd (m st)) = calls st ++ evs -> calls_made m st = evs.
Proof. unfold calls_made. intros ->. apply drop_calls_app. Qed.

Lemma bulk_run_all_created cfg entries results evs final :
  bulk_run cfg entries results evs final ->
  Forall (fun s => dispatched cfg s = true) entries ->
  Forall (fun ev => call_succeeded ev = true) evs ->
  failed final = failed results
  /\ length (success final) = (length (success results) + length entries)%nat.
Proof.
  induction 1 as [r | s l r err evs fin Hbad Hrun IH
                  | s l r ev sid evs fin Hok Hc Hu Hs Hrun IH
                  | s l r ev nm err evs fin Hok Hc Hu Hs Hrun IH];
    intros Hall Hsucc.
  - simpl. split; [reflexivity | lia].
  - apply Forall_inv in Hall. congruence.
  - apply Forall_inv_tail in Hall. apply Forall_inv_tail in Hsucc.
    destruct (IH Hall Hsucc) as [Hf Hl]. simpl in *.
    rewrite length_app in Hl. simpl in Hl. split; [assumption | lia].
  - apply Forall_inv in Hsucc. congruence.
Qed.

Lemma bulk_run_one_refused cfg k after :
  dispatched cfg k = false ->
  forall before results evs final,
  bulk_run cfg (before ++ k :: after) results evs final ->
  Forall (fun s => dispatched cfg s = true) (before ++ after) ->
  Forall (fun ev => call_succeeded ev = true) evs ->
  (exists error,
     failed final
     = failed results ++ [JDict [(py "name", JStr (name k)); (py "error", JStr error)]])
  /\ length (success final) = (length (success results) + length before + length after)%nat.
Proof.
  intros Hk before. induction before as [|s before IH]; intros results evs final Hrun Hall Hsucc;
    simpl in *.
  - inversion Hrun as [ | s' l r err evs' fin Hbad Hrest
                       | s' l r ev sid evs' fin Hok
                       | s' l r ev nm err evs' fin Hok ]; subst; try congruence.
    destruct (bulk_run_all_created _ _ _ _ _ Hrest Hall Hsucc) as [Hf Hl].
    simpl in *. split; [exists err; assumption | lia].
  - inversion Hrun as [ | s' l r err evs' fin Hbad Hrest
                       | s' l r ev sid evs' fin Hok Hc Hu Hs Hrest
                       | s' l r ev nm err evs' fin Hok Hc Hu Hs Hrest ]; subst.
    + apply Forall_inv in Hall. congruence.
    + apply Forall_inv_tail in Hall. apply Forall_inv_tail in Hsucc.
      destruct (IH _ _ _ Hrest Hall Hsucc) as [[err Hf] Hl]. simpl in *.
      rewrite length_app in Hl. simpl in Hl. split; [exists err; assumption | lia].
    + apply Forall_inv in Hsucc. congruence.
Qed.


(** C2, as amended. When exactly one entry [k] of a bulk create fails the
    name checks, every other entry passes them and is sent to the backend
    (for the remote API its data must be encodable), and every backend
    call made comes back with a result (exit status 0, or a success
    status with an empty body or a JSON object), the result holds exactly
    one failure, carrying the name of [k] as sent, and one success for
    each of the N-1 other entries, wherever [k] stands in the batch. *)
Theorem bulk_one_invalid_entry cfg before k after user st :
  name_ok k = false ->
  Forall (fun s => dispatched cfg s = true) (before ++ after) ->
  Forall (fun ev => call_succeeded ev = true)
    (calls_made (create_bulk_secrets cfg {| secrets := before ++ k :: after |} user) st) ->
  exists succeeded error,
    fst (create_bulk_secrets cfg {| secrets := before ++ k :: after |} user st)
    = inr (JDict [(py "success", JList succeeded);
                  (py "failed",
                   JList [JDict [(py "name", JStr (name k)); (py "error", JStr error)]])])
    /\ length succeeded = (length before + length after)%nat.
Proof.
  intros Hk Hall Hsucc.
  destruct (create_bulk_secrets_run cfg {| secrets := before ++ k :: after |} user st)
    as (final & st' & evs & Hrun & Hcalls & Hrel).
  rewrite (calls_made_eq _ _ evs) in Hsucc by (rewrite Hrun; exact Hcalls).
  rewrite Hrun. simpl in Hrel.
  destruct (bulk_run_one_refused cfg k after (name_refused_not_dispatched cfg k Hk)
              _ _ _ _ Hrel Hall Hsucc) as [[err Hf] Hl].
  simpl in *. exists (success final), err. unfold results_json. rewrite Hf.
  split; [reflexivity | assumption].
Qed.

End BulkFacts.

(** ** Validation of a single create, and stripping *)

Section ValidationFacts.
Context `{Runtime}.

Lemma app_singleton_neq {A : Type} (l : list A) (x : A) : l ++ [x] <> l.
Proof.
  intros Heq. apply (f_equal (@length A)) in Heq. rewrite length_app in Heq. simpl in Heq. lia.
Qed.

Lemma log_call_neq st w ev : log_call st w ev <> st.
Proof.
  intros Heq. apply (f_equal calls) in Heq. simpl in Heq. exact (app_singleton_neq _ _ Heq).
Qed.




Lemma create_secret_rejected_iff cfg secret user st :
  rejected_before_backend (create_secret cfg secret user) st <-> name_ok secret = false.
Proof.
  unfold rejected_before_backend. destruct (name_ok secret) eqn:Hok.
  - split; [|discriminate]. intros [(detail & headers & Hres) Hcalls].
    destruct (dispatched cfg secret) eqn:Hd.
    + destruct (create_secret_dispatched cfg secret user st Hd) as (ev & w & Hst & _).
      rewrite Hst in Hcalls. simpl in Hcalls. destruct (app_singleton_neq _ _ Hcalls).
    + destruct (dispatched_false _ _ Hd) as [Hbad | (_ & Huse & e & Henc)]; [congruence|].
      rewrite (create_secret_unsent cfg secret user st e Hok Huse Henc) in Hres.
      discriminate.
  - split; [reflexivity|]. intros _.
    destruct (create_secret_refused cfg secret user st Hok) as [detail Hrun].
    rewrite Hrun. simpl. split; [|reflexivity]. now exists detail, [].
Qed.





(** C1, as amended. A create request is answered 400 before any backend
    call exactly when its name, once leading and trailing white space is
    stripped, is empty, longer than 253 characters, or holds one of the
    characters [=], [/], [,] and NUL. A request whose stripped name
    passes makes exactly one backend call, a create for the stripped
    name, unless the remote API is in use and the data cannot be encoded
    as UTF-8: that request is answered 500 and no call is made. *)
Theorem create_secret_rejects_iff_stripped_name_refused cfg secret user st :
  (rejected_before_backend (create_secret cfg secret user) st
   <-> name_refused (strip (name secret)))
  /\ (~ name_refused (strip (name secret)) ->
      (USE_HTTP_API cfg = false \/ (exists bytes, utf8_encode (data secret) = inr bytes) ->
       exists ev w,
         snd (create_secret cfg secret user st) = log_call st w ev
         /\ create_call cfg (strip (name secret)) ev)
      /\ (USE_HTTP_API cfg = true ->
          forall e,
            utf8_encode (data secret) = inl e ->
            create_secret cfg secret user st
            = (inl (HTTPException HTTP_500_INTERNAL_SERVER_ERROR (exn_str e) []), st)))
  /\ ((exists ev w,
         snd (create_secret cfg secret user st) = log_call st w ev
         /\ create_call cfg (strip (name secret)) ev)
      -> ~ name_refused (strip (name secret))).
Proof.
  rewrite <- name_ok_refused. split; [apply create_secret_rejected_iff|]. split.
  - intros Hok. apply not_false_iff_true in Hok. split.
    + intros Hsend.
      assert (Hd : dispatched cfg secret = true).
      { unfold dispatched. rewrite Hok. simpl.
        destruct Hsend as [-> | [bytes ->]]; [reflexivity | apply orb_true_r]. }
      destruct (create_secret_dispatched cfg secret user st Hd) as (ev & w & Hst & Hcall & _).
      now exists ev, w.
    + intros Huse e Henc. now apply create_secret_unsent.
  - intros (ev & w & Hst & _) Hbad.
    destruct (create_secret_refused cfg secret user st Hbad) as [detail Hrun].
    rewrite Hrun in Hst. simpl in Hst. symmetry in Hst. destruct (log_call_neq _ _ _ Hst).
Qed.


End ValidationFacts.

(** ** The other handlers make exactly one backend call *)

Section SingleCallFacts.
Context `{Runtime}.

Lemma one_call_then_lift {A B : Type} cfg (m : Eff A) (f : A -> exn + B) :
  one_call cfg m -> one_call cfg (let* r := m in lift (f r)).
Proof.
  intros Hm st. destruct (Hm st) as (ev & w & Hst & Huse). exists ev, w.
  split; [|assumption]. unfold bind. destruct (m st) as [[e|a] st']; simpl in *; [assumption|].
  destruct (f a); assumption.
Qed.

Lemma list_secrets_one_call cfg user : one_call cfg (list_secrets cfg user).
Proof.
  intros st. unfold list_secrets, try_except. destruct (USE_HTTP_API cfg) eqn:Huse; unfold bind.
  - rewrite http_api_request_run. simpl. eexists. eexists. split.
    + destruct (api_result _) as [e|v]; simpl; [reflexivity|].
      destruct (json_truthy v); simpl; [|reflexivity].
      destruct (py_iter v) as [e|items]; simpl; [reflexivity|].
      destruct (map_except transformed_secret items); reflexivity.
    + exact eq_refl.
  - rewrite run_podman_command_run. simpl. eexists. eexists. split.
    + destruct (podman_result _) as [e|v]; simpl; [reflexivity|].
      destruct (json_truthy v); reflexivity.
    + exact eq_refl.
Qed.

Lemma inspect_secret_one_call cfg secret_id user : one_call cfg (inspect_secret cfg secret_id user).
Proof.
  intros st. unfold inspect_secret, try_except. destruct (USE_HTTP_API cfg) eqn:Huse; unfold bind.
  - rewrite http_api_request_run. simpl. eexists. eexists. split.
    + destruct (api_result _) as [e|v]; simpl; [destruct e; reflexivity|].
      destruct (json_truthy v); simpl; [|reflexivity].
      repeat match goal with
             | |- context [lift (py_get ?x ?k ?d)] =>
                 destruct (py_get x k d) as [[]|?]; simpl; try reflexivity
             end.
    + exact eq_refl.
  - rewrite run_podman_command_run. simpl. eexists. eexists. split.
    + destruct (podman_result _) as [e|v]; simpl; [destruct e; reflexivity|].
      destruct (json_truthy v); simpl; [|reflexivity].
      destruct (py_len v) as [[]|n]; simpl; try reflexivity.
      destruct (n =? 0)%nat; simpl; [reflexivity|].
      destruct (py_item0 v) as [[]|?]; reflexivity.
    + exact eq_refl.
Qed.

Lemma delete_secret_one_call cfg secret_id user : one_call cfg (delete_secret cfg secret_id user).
Proof.
  intros st. unfold delete_secret, try_except. destruct (USE_HTTP_API cfg) eqn:Huse; unfold bind.
  - rewrite http_api_request_run. simpl. eexists. eexists. split.
    + destruct (api_result _) as [[]|v]; reflexivity.
    + exact eq_refl.
  - rewrite subprocess_run_run. simpl. eexists. eexists. split.
    + destruct (run_result _) as [[]|v]; reflexivity.
    + exact eq_refl.
Qed.

Lemma health_check_one_call cfg : one_call cfg (health_check cfg).
Proof.
  intros st. unfold health_check, try_except. destruct (USE_HTTP_API cfg) eqn:Huse; unfold bind.
  - rewrite http_api_request_run. simpl. eexists. eexists. split.
    + destruct (api_result _) as [e|v]; simpl; [reflexivity|].
      destruct (py_get v _ _); reflexivity.
    + exact eq_refl.
  - rewrite subprocess_run_run. simpl. eexists. eexists. split.
    + destruct (run_result _) as [e|stdout]; simpl; [reflexivity|].
      destruct (json_loads stdout) as [e|v]; simpl; [reflexivity|].
      destruct (py_get v _ _) as [e|client]; simpl; [reflexivity|].
      destruct (py_get client _ _); reflexivity.
    + exact eq_refl.
Qed.

Lemma one_call_uses_backend {A : Type} cfg (m : Eff A) st :
  one_call cfg m -> Forall (uses_backend (USE_HTTP_API cfg)) (calls_made m st).
Proof.
  intros Hm. destruct (Hm st) as (ev & w & Hst & Huse).
  rewrite (calls_made_eq _ _ [ev]) by (rewrite Hst; reflexivity).
  repeat constructor. assumption.
Qed.

Lemma bulk_run_uses_backend cfg entries results evs final :
  bulk_run cfg entries results evs final -> Forall (uses_backend (USE_HTTP_API cfg)) evs.
Proof.
  induction 1; try constructor; assumption.
Qed.

Lemma handle_uses_backend cfg op user st :
  Forall (uses_backend (USE_HTTP_API cfg)) (calls_made (handle cfg op user) st).
Proof.
  destruct op as [|secret|bulk|secret_id|secret_id|]; simpl.
  - apply one_call_uses_backend, one_call_then_lift, list_secrets_one_call.
  - destruct (dispatched cfg secret) eqn:Hd.
    + destruct (create_secret_dispatched cfg secret user st Hd) as (ev & w & Hst & _ & Huse).
      rewrite (calls_made_eq _ _ [ev]) by (rewrite Hst; reflexivity).
      repeat constructor. assumption.
    + rewrite (calls_made_eq _ _ [])
        by (rewrite (create_secret_not_dispatched _ _ _ _ Hd); now rewrite app_nil_r).
      constructor.
  - destruct (create_bulk_secrets_run cfg bulk user st) as (final & st' & evs & Hrun & Hcalls & Hrel).
    rewrite (calls_made_eq _ _ evs) by (rewrite Hrun; exact Hcalls).
    eapply bulk_run_uses_backend; eassumption.
  - apply one_call_uses_backend, one_call_then_lift, inspect_secret_one_call.
  - apply one_call_uses_backend, delete_secret_one_call.
  - apply one_call_uses_backend, health_check_one_call.
Qed.

Lemma str_truthy_nonempty (s : str) : str_truthy s = true <-> s <> [].
Proof. destruct s; simpl; split; congruence. Qed.

(** C8. The backend is fixed by the configuration read when the module
    is loaded: the remote API is selected exactly when [PODMAN_HOST] is
    set, not empty and starts with [tcp://], and every backend call of
    every secret operation goes to the backend so selected. *)
Theorem backend_selected_once_from_configuration (environ : gmap string str) :
  (USE_HTTP_API (load_config environ) = true
   <-> exists host,
         environ !! "PODMAN_HOST"%string = Some host
         /\ host <> []
         /\ startswith host (py "tcp://") = true)
  /\ (forall op user st,
        Forall (uses_backend (USE_HTTP_API (load_config environ)))
          (calls_made (handle (load_config environ) op user) st)).
Proof.
  split; [|intros; apply handle_uses_backend].
  unfold load_config, getenv. simpl.
  destruct (environ !! "PODMAN_HOST"%string) as [host|]; simpl.
  - rewrite andb_true_iff, str_truthy_nonempty. split.
    + intros [Hne Hpre]. now exists host.
    + intros (host' & Heq & Hne & Hpre). injection Heq as <-. now split.
  - split; [discriminate|]. intros (host & Heq & _). discriminate.
Qed.

End SingleCallFacts.

(** ** Health check and delete *)

Section FailureFacts.
Context `{Runtime}.

(** C4, as amended. The health check never raises: it always returns a
    dictionary. When the backend answered the version request (a success
    status with an empty body or a JSON object; exit status 0 with a JSON
    object whose [Client], if present, is an object) the dictionary holds
    [podman_available] (true), the version reported, [host], [connection]
    and [mode]; when anything failed it holds [podman_available] (false)
    and [error], the text of the exception, and nothing else. *)
Theorem health_check_always_answers cfg st :
  (exists d,
     fst (health_check cfg st) = inr (JDict d)
     /\ ((exists version mode,
            d = [(py "podman_available", JBool true);
                 (py "version", version);
                 (py "host", JStr (str_or (PODMAN_HOST cfg) (py "default")));
                 (py "connection", JStr (str_or (PODMAN_CONNECTION cfg) (py "default")));
                 (py "mode", JStr mode)]
            /\ mode = (if USE_HTTP_API cfg then py "HTTP API" else py "CLI"))
         \/ (exists error,
               d = [(py "podman_available", JBool false); (py "error", JStr error)])))
  /\ (forall version,
        backend_answered cfg st version ->
        fst (health_check cfg st)
        = inr (JDict [(py "podman_available", JBool true);
                      (py "version", version);
                      (py "host", JStr (str_or (PODMAN_HOST cfg) (py "default")));
                      (py "connection", JStr (str_or (PODMAN_CONNECTION cfg) (py "default")));
                      (py "mode",
                       JStr (if USE_HTTP_API cfg then py "HTTP API" else py "CLI"))]))
  /\ (~ (exists version, backend_answered cfg st version) ->
      exists error,
        fst (health_check cfg st)
        = inr (JDict [(py "podman_available", JBool false); (py "error", JStr error)]))
  /\ (USE_HTTP_API cfg = true ->
      forall code text,
        fst (http_send (api_request cfg (py "GET") (py "/version") [] None) (world st))
        = StatusError code text ->
        fst (health_check cfg st)
        = inr (JDict [(py "podman_available", JBool false);
                      (py "error",
                       JStr (exn_str (HTTPException code (py "Podman API error: " ++ text) [])))]))
  /\ (USE_HTTP_API cfg = false ->
      forall out,
        fst (run_process (podman_cmd cfg ++ [py "version"; py "--format"; py "json"]) None
               (world st)) = out ->
        match out with
        | Exited code stdout stderr =>
            code <> 0 ->
            fst (health_check cfg st)
            = inr (JDict [(py "podman_available", JBool false);
                          (py "error", JStr (exn_str (CalledProcessError code stderr)))])
        | SpawnError e =>
            fst (health_check cfg st)
            = inr (JDict [(py "podman_available", JBool false);
                          (py "error", JStr (exn_str e))])
        end).
Proof.
  unfold health_check, try_except, backend_answered.
  split; [|split; [|split; [|split]]].
  - destruct (USE_HTTP_API cfg) eqn:Huse; unfold bind.
    + rewrite http_api_request_run. simpl.
      destruct (api_result _) as [e|v]; simpl; [eauto 8|].
      destruct (py_get v _ _) as [e|version]; simpl; eauto 8.
    + rewrite subprocess_run_run. simpl.
      destruct (run_result _) as [e|stdout]; simpl; [eauto 8|].
      destruct (json_loads stdout) as [e|v]; simpl; [eauto 8|].
      destruct (py_get v _ _) as [e|client]; simpl; [eauto 8|].
      destruct (py_get client _ _) as [e|version]; simpl; eauto 8.
  - intros version. destruct (USE_HTTP_API cfg); unfold bind.
    + intros (content & info & Hout & Hbody & ->).
      rewrite http_api_request_run. cbv zeta. rewrite Hout. unfold api_result.
      destruct Hbody as [[-> ->] | [Hne Hjson]]; [reflexivity|].
      destruct content as [|c content]; [congruence|]. cbn [str_truthy].
      rewrite Hjson. reflexivity.
    + intros (stdout & stderr & info & client & Hout & Hjson & Hclient & ->).
      rewrite subprocess_run_run, Hout. unfold run_result. cbn [Z.eqb fst snd].
      rewrite Hjson. cbn [lift ret py_get]. unfold get_or in Hclient.
      rewrite Hclient. reflexivity.
  - intros Hnot. destruct (USE_HTTP_API cfg); unfold bind.
    + rewrite http_api_request_run. cbv zeta. unfold api_result.
      destruct (fst (http_send _ _)) as [content|code text|e] eqn:Hout; cbn [fst snd];
        [|eauto|eauto].
      destruct content as [|c content]; cbn [str_truthy].
      * exfalso. apply Hnot. eexists. exists [], []. eauto 6.
      * destruct (json_loads (c :: content)) as [e|v] eqn:Hjson; cbn [fst snd]; [eauto|].
        destruct v; cbn [lift raise ret py_get fst snd]; try (eexists; reflexivity).
        exfalso. apply Hnot. eexists. exists (c :: content), d.
        split; [reflexivity|]. split; [right; split; [discriminate | assumption] | reflexivity].
    + rewrite subprocess_run_run. unfold run_result.
      destruct (fst (run_process _ _ _)) as [code stdout stderr|e] eqn:Hout; cbn [fst snd];
        [|eauto].
      destruct (code =? 0) eqn:Hcode; cbn [fst snd]; [|eauto].
      apply Z.eqb_eq in Hcode. subst code.
      destruct (json_loads stdout) as [e|v] eqn:Hjson; cbn [lift raise ret fst snd]; [eauto|].
      destruct v; cbn [py_get lift raise ret fst snd]; try (eexists; reflexivity).
      destruct (match dict_lookup (py "Client") d with Some v => v | None => JDict [] end)
        as [| | | | | |client] eqn:Hclient; cbn [py_get lift raise ret fst snd];
        try (eexists; reflexivity).
      exfalso. apply Hnot. eexists. exists stdout, stderr, d, client.
      split; [reflexivity|]. split; [assumption|]. split; [exact Hclient | reflexivity].
  - intros Huse code text Hout. rewrite Huse. unfold bind.
    rewrite http_api_request_run. cbv zeta. rewrite Hout. reflexivity.
  - intros Huse out Hout. rewrite Huse. unfold bind.
    rewrite subprocess_run_run, Hout. unfold run_result.
    destruct out as [code stdout stderr|e]; [|reflexivity].
    intros Hcode. apply Z.eqb_neq in Hcode. rewrite Hcode. reflexivity.
Qed.

(** C7. Deleting a secret the backend does not know ends in a structured
    failure: with the local command, a non-zero exit becomes 400 with the
    captured error stream as detail; with the remote API, the status the
    service answered (404 for an unknown secret) is passed on with its
    text; and whatever happens, the handler returns or raises an
    [HTTPException], never anything else. *)
Theorem delete_secret_failures_are_structured cfg secret_id user st :
  (USE_HTTP_API cfg = false ->
   forall returncode stdout stderr,
     fst (run_process (podman_cmd cfg ++ [py "secret"; py "rm"; secret_id]) None (world st))
     = Exited returncode stdout stderr ->
     returncode <> 0 ->
     fst (delete_secret cfg secret_id user st)
     = inl (HTTPException HTTP_400_BAD_REQUEST (py "Failed to delete secret: " ++ stderr) []))
  /\ (USE_HTTP_API cfg = true ->
      forall status_code text,
        fst (http_send (api_request cfg (py "DELETE") (py "/secrets/" ++ secret_id) [] None)
               (world st))
        = StatusError status_code text ->
        fst (delete_secret cfg secret_id user st)
        = inl (HTTPException status_code (py "Podman API error: " ++ text) []))
  /\ ((exists v, fst (delete_secret cfg secret_id user st) = inr v)
      \/ (exists status_code detail headers,
            fst (delete_secret cfg secret_id user st)
            = inl (HTTPException status_code detail headers))).
Proof.
  unfold delete_secret, try_except. split; [|split].
  - intros Huse code out err Hout Hcode. rewrite Huse. unfold bind.
    rewrite subprocess_run_run, Hout. simpl.
    apply Z.eqb_neq in Hcode. rewrite Hcode. reflexivity.
  - intros Huse code text Hout. rewrite Huse. unfold bind.
    rewrite http_api_request_run. cbv zeta. rewrite Hout. simpl.
    reflexivity.
  - destruct (USE_HTTP_API cfg); unfold bind.
    + rewrite http_api_request_run. simpl.
      destruct (api_result _) as [[]|v]; simpl; eauto 6.
    + rewrite subprocess_run_run. simpl.
      destruct (run_result _) as [[]|v]; simpl; eauto 6.
Qed.

End FailureFacts.

(** ** Response normalisation *)

Section NormalisationFacts.
Context `{Runtime}.

Lemma transformed_secret_canonical raw x :
  remote_reports raw x -> transformed_secret raw = inr (canonical_summary x).
Proof.
  intros (d & drv & -> & Hid & Hspec & Hname & Hdrv & Hdname & Hc & Hu).
  unfold transformed_secret, py_get, except_bind.
  rewrite Hid, Hspec, Hname, Hdrv, Hdname, Hc, Hu. reflexivity.
Qed.

Lemma SecretResponse_canonical x : SecretResponse (canonical_summary x) = inr (canonical_summary x).
Proof. reflexivity. Qed.

Lemma SecretResponse_local with_spec raw x :
  local_reports with_spec raw x -> SecretResponse raw = inr (canonical_summary x).
Proof.
  intros (d & -> & Hid & Hname & Hdrv & Hc & Hu & _).
  unfold SecretResponse, str_field, except_bind.
  rewrite Hid, Hname, Hdrv, Hc, Hu. reflexivity.
Qed.

Lemma SecretDetail_local raw x :
  local_reports true raw x -> SecretDetail raw = inr (canonical_detail x).
Proof.
  intros (d & -> & Hid & Hname & Hdrv & Hc & Hu & Hspec).
  unfold SecretDetail, str_field, dict_field, except_bind.
  rewrite Hid, Hname, Hdrv, Hc, Hu, (Hspec eq_refl). reflexivity.
Qed.

Lemma map_except_Forall2 {A B C : Type} (f : A -> exn + B) (g : C -> B) (R : A -> C -> Prop) :
  (forall a c, R a c -> f a = inr (g c)) ->
  forall l xs, Forall2 R l xs -> map_except f l = inr (map g xs).
Proof.
  intros Hf l xs Hall. induction Hall as [|a c l xs Hac Hall IH]; simpl; [reflexivity|].
  rewrite (Hf a c Hac), IH. reflexivity.
Qed.

Lemma map_except_SecretResponse_canonical (infos : list secret_info) :
  map_except SecretResponse (map canonical_summary infos) = inr (map canonical_summary infos).
Proof.
  induction infos as [|x infos IH]; [reflexivity|].
  cbn [map map_except]. rewrite SecretResponse_canonical. cbn [except_bind].
  rewrite IH. reflexivity.
Qed.

Lemma list_remote_canonical cfg user st raws infos :
  USE_HTTP_API cfg = true ->
  remote_answers cfg (py "/secrets/json") st (JList raws) ->
  Forall2 remote_reports raws infos ->
  fst (list_secrets_response cfg user st) = inr (JList (map canonical_summary infos)).
Proof.
  intros Huse (content & Hout & Htruthy & Hjson) Hall.
  unfold list_secrets_response, list_secrets, try_except, bind. rewrite Huse.
  rewrite http_api_request_run. cbv zeta. rewrite Hout. unfold api_result.
  rewrite Htruthy, Hjson. cbn [fst snd].
  destruct Hall as [|raw x raws infos Hrx Hall]; [reflexivity|].
  cbn [json_truthy negb py_iter lift ret].
  rewrite (map_except_Forall2 transformed_secret canonical_summary remote_reports
             transformed_secret_canonical (raw :: raws) (x :: infos))
    by (constructor; assumption).
  cbn [lift ret fst snd List_of].
  rewrite map_except_SecretResponse_canonical. reflexivity.
Qed.

Lemma list_local_canonical cfg user st raws infos :
  USE_HTTP_API cfg = false ->
  local_answers cfg [py "secret"; py "ls"; py "--format"; py "json"] st (JList raws) ->
  Forall2 (local_reports false) raws infos ->
  fst (list_secrets_response cfg user st) = inr (JList (map canonical_summary infos)).
Proof.
  intros Huse (stdout & stderr & Hout & Htruthy & Hjson) Hall.
  unfold list_secrets_response, list_secrets, try_except, bind. rewrite Huse.
  rewrite run_podman_command_run. cbv zeta. rewrite Hout. unfold podman_result, run_result.
  cbn [Z.eqb]. rewrite Htruthy, Hjson. cbn [fst snd].
  destruct Hall as [|raw x raws infos Hrx Hall]; [reflexivity|].
  cbn [json_truthy negb ret lift fst snd List_of].
  rewrite (map_except_Forall2 SecretResponse canonical_summary (local_reports false)
             (SecretResponse_local false) (raw :: raws) (x :: infos))
    by (constructor; assumption).
  reflexivity.
Qed.

Lemma inspect_remote_canonical cfg secret_id user st raw x :
  USE_HTTP_API cfg = true ->
  remote_answers cfg (py "/secrets/" ++ secret_id ++ py "/json") st raw ->
  remote_reports raw x ->
  fst (inspect_secret_response cfg secret_id user st) = inr (canonical_detail x).
Proof.
  intros Huse (content & Hout & Htruthy & Hjson)
    (d & drv & -> & Hid & Hspec & Hname & Hdrv & Hdname & Hc & Hu).
  unfold inspect_secret_response, inspect_secret, try_except, bind. rewrite Huse.
  rewrite http_api_request_run. cbv zeta. rewrite Hout. unfold api_result.
  rewrite Htruthy, Hjson. cbn [fst snd].
  destruct d as [|kv d]; [discriminate|].
  cbn [json_truthy negb]. unfold py_get.
  repeat (first [rewrite Hid | rewrite Hspec | rewrite Hname | rewrite Hdrv
                | rewrite Hdname | rewrite Hc | rewrite Hu];
          cbn [lift ret fst snd]).
  reflexivity.
Qed.

Lemma inspect_local_canonical cfg secret_id user st raw x :
  USE_HTTP_API cfg = false ->
  local_answers cfg [py "secret"; py "inspect"; secret_id] st (JList [raw]) ->
  local_reports true raw x ->
  fst (inspect_secret_response cfg secret_id user st) = inr (canonical_detail x).
Proof.
  intros Huse (stdout & stderr & Hout & Htruthy & Hjson) Hraw.
  unfold inspect_secret_response, inspect_secret, try_except, bind. rewrite Huse.
  rewrite run_podman_command_run. cbv zeta. rewrite Hout. unfold podman_result, run_result.
  cbn [Z.eqb]. rewrite Htruthy, Hjson.
  cbn [fst snd json_truthy negb py_len lift ret length Nat.eqb py_item0].
  rewrite (SecretDetail_local raw x Hraw). reflexivity.
Qed.

(** C3. When the remote API and the local command report the same secrets
    (the API with the name and the driver name nested in [Spec], the
    command with the flat fields), the list route answers with the same
    sequence of [{ID, Name, Driver, CreatedAt, UpdatedAt}] under both
    backends, and the inspect route with the same object of those fields
    plus [Spec]. *)
Theorem backends_give_same_canonical_shape
    (remote local : Config) (user : User) (secret_id : str)
    (infos : list secret_info) (info : secret_info)
    (remote_list local_list : list json) (remote_item local_item : json)
    (st_remote st_local st_remote' st_local' : St) :
  USE_HTTP_API remote = true ->
  USE_HTTP_API local = false ->
  remote_answers remote (py "/secrets/json") st_remote (JList remote_list) ->
  Forall2 remote_reports remote_list infos ->
  local_answers local [py "secret"; py "ls"; py "--format"; py "json"] st_local
    (JList local_list) ->
  Forall2 (local_reports false) local_list infos ->
  remote_answers remote (py "/secrets/" ++ secret_id ++ py "/json") st_remote' remote_item ->
  remote_reports remote_item info ->
  local_answers local [py "secret"; py "inspect"; secret_id] st_local' (JList [local_item]) ->
  local_reports true local_item info ->
  fst (list_secrets_response remote user st_remote)
  = fst (list_secrets_response local user st_local)
  /\ fst (list_secrets_response local user st_local)
     = inr (JList (map canonical_summary infos))
  /\ fst (inspect_secret_response remote secret_id user st_remote')
     = fst (inspect_secret_response local secret_id user st_local')
  /\ fst (inspect_secret_response local secret_id user st_local')
     = inr (canonical_detail info).
Proof.
  intros Hr Hl Hrl Hrs Hll Hls Hri Hrx Hli Hlx.
  rewrite (list_remote_canonical _ _ _ _ _ Hr Hrl Hrs).
  rewrite (list_local_canonical _ _ _ _ _ Hl Hll Hls).
  rewrite (inspect_remote_canonical _ _ _ _ _ _ Hr Hri Hrx).
  rewrite (inspect_local_canonical _ _ _ _ _ _ Hl Hli Hlx).
  repeat split.
Qed.

End NormalisationFacts.

(** ** Authentication *)

Section AuthFacts.
Context `{Auth}.

(** C5. A password change whose current password does not verify against
    the stored hash fails with 400 and leaves the table as it was; one
    whose current password verifies succeeds with 200 and stores the hash
    of the new password in the user's row, no other row being touched. *)
Theorem change_password_requires_current_password
    (password_change : PasswordChange) (current_user : User)
    (db : gmap str User) (salt : Salt) (now : Z) :
  db !! database.username current_user = Some current_user ->
  (verify_password (current_password password_change)
     (database.hashed_password current_user) = false ->
   change_password password_change current_user db salt now
   = (inl (HTTPException HTTP_400_BAD_REQUEST (py "Current password is incorrect") []), db)
   /\ status_of HTTP_200_OK (fst (change_password password_change current_user db salt now))
      = 400)
  /\ (verify_password (current_password password_change)
        (database.hashed_password current_user) = true ->
      (exists body, fst (change_password password_change current_user db salt now) = inr body)
      /\ status_of HTTP_200_OK (fst (change_password password_change current_user db salt now))
         = 200
      /\ database.hashed_password
           <$> (snd (change_password password_change current_user db salt now)
                  !! database.username current_user)
         = Some (get_password_hash salt (new_password password_change))
      /\ (forall other,
            other <> database.username current_user ->
            snd (change_password password_change current_user db salt now) !! other
            = db !! other)).
Proof.
  intros Hstored. unfold change_password. split; intros Hverify; rewrite Hverify; simpl.
  - split; reflexivity.
  - split; [eauto|]. split; [reflexivity|]. split.
    + rewrite lookup_insert_eq. reflexivity.
    + intros other Hother. apply lookup_insert_ne. congruence.
Qed.

(** C6. A login with the password of an existing user returns an access
    token with token type [bearer]; a login for an unknown user and a
    login with a wrong password both fail with one and the same 401
    failure, which carries no token. *)
Theorem login_uniform_failure (user_login : UserLogin) (db : gmap str User) (now : Z) :
  (forall user,
     db !! login_username user_login = Some user ->
     verify_password (login_password user_login) (database.hashed_password user) = true ->
     login user_login db now
     = inr (JDict [(py "access_token",
                    JStr (create_access_token (database.username user)
                            ACCESS_TOKEN_EXPIRE_MINUTES now));
                   (py "token_type", JStr (py "bearer"))]))
  /\ (db !! login_username user_login = None
      \/ (exists user,
            db !! login_username user_login = Some user
            /\ verify_password (login_password user_login) (database.hashed_password user)
               = false) ->
      login user_login db now
      = inl (HTTPException HTTP_401_UNAUTHORIZED (py "Incorrect username or password")
               [(py "WWW-Authenticate", py "Bearer")])
      /\ status_of HTTP_200_OK (login user_login db now) = 401).
Proof.
  unfold login, authenticate_user. split.
  - intros user Hdb Hverify. rewrite Hdb, Hverify. reflexivity.
  - intros [Hdb | (user & Hdb & Hverify)]; rewrite Hdb; [|rewrite Hverify];
      split; reflexivity.
Qed.

End AuthFacts.

(** ** The handlers on concrete requests *)

Example create_secret_cli_ex :
  create_secret (H := scripted []) cli_config (secret_named "  db pass ") sample_user
    (scripted_state [] [] [Exited 0 (line "4f2a") []])
  = (inr (JDict [(py "id", JStr (py "4f2a")); (py "name", JStr (py "db pass"));
                 (py "message", JStr (py "Secret created successfully"))]),
     @Build_St (scripted []) ([], [])
       [ProcEvent [py "podman"; py "--connection"; py "my-tcp"; py "secret";
                   py "create"; py "db pass"; py "-"]
          (Some (py "s3cret")) (Exited 0 (line "4f2a") [])]).
Proof. reflexivity. Qed.

Example create_secret_longest_name_ex :
  name_ok {| name := repeat 97%N 253; data := py "s3cret"; driver := None |} = true
  /\ name_ok {| name := repeat 97%N 254; data := py "s3cret"; driver := None |} = false
  /\ name_ok {| name := 32%N :: repeat 97%N 253; data := py "s3cret"; driver := None |} = true.
Proof. repeat split; vm_compute; reflexivity. Qed.

Example bulk_mixed_ex :
  fst (create_bulk_secrets (H := scripted []) cli_config
         {| secrets := [secret_named "db"; secret_named "a/b"; secret_named "api";
                        secret_named "cache"] |}
         sample_user
         (scripted_state [] []
            [Exited 0 (line "id1") []; Exited 125 [] (line "secret name in use")]))
  = inr (JDict
           [(py "success", JList [JDict [(py "id", JStr (py "id1")); (py "name", JStr (py "db"))]]);
            (py "failed",
             JList [JDict [(py "name", JStr (py "a/b"));
                           (py "error", JStr (py "Invalid characters in name"))];
                    JDict [(py "name", JStr (py "api"));
                           (py "error", JStr (line "secret name in use"))];
                    JDict [(py "name", JStr (py "cache")); (py "error", JStr (py "podman"))]])]).
Proof. reflexivity. Qed.

Example health_check_unreachable_ex :
  fst (health_check (H := scripted []) api_config (scripted_state [] [] []))
  = inr (JDict [(py "podman_available", JBool false);
                (py "error",
                 JStr (py "Failed to connect to Podman API: connection refused"))]).
Proof. reflexivity. Qed.

Example delete_secret_unknown_ex :
  fst (delete_secret (H := scripted []) cli_config (py "nope") sample_user
         (scripted_state [] [] [Exited 1 [] (line "no secret with name or id nope")]))
  = inl (HTTPException 400 (py "Failed to delete secret: " ++ line "no secret with name or id nope") [])
  /\ fst (delete_secret (H := scripted []) api_config (py "nope") sample_user
            (scripted_state [] [StatusError 404 (py "no such secret")] []))
     = inl (HTTPException 404 (py "Podman API error: no such secret") []).
Proof. split; reflexivity. Qed.

Example login_ex :
  login (H := sample_auth) {| login_username := py "admin"; login_password := py "admin" |}
    sample_db 0
  = inr (JDict [(py "access_token", JStr (py "token-for-admin"));
                (py "token_type", JStr (py "bearer"))])
  /\ login (H := sample_auth) {| login_username := py "admin"; login_password := py "guess" |}
       sample_db 0
     = login (H := sample_auth) {| login_username := py "nobody"; login_password := py "guess" |}
         sample_db 0.
Proof. split; vm_compute; reflexivity. Qed.

(** C1, as stated, fails: a name of one space is not empty, not too long
    and free of forbidden characters, yet the request is answered 400
    before any backend call. *)
Lemma create_secret_blank_name_counterexample :
  ~ (rejected_before_backend (H := scripted [])
       (create_secret cli_config (secret_named " ") sample_user) (scripted_state [] [] [])
     <-> name_refused (name (secret_named " "))).
Proof.
  intros [Hrejected _].
  assert (Hrun : rejected_before_backend (H := scripted [])
                   (create_secret cli_config (secret_named " ") sample_user)
                   (scripted_state [] [] [])).
  { split; [|reflexivity]. eexists. eexists. reflexivity. }
  destruct (Hrejected Hrun) as [Hempty | [Hlong | (c & Hc & Hin)]].
  - discriminate.
  - vm_compute in Hlong. lia.
  - vm_compute in Hin. destruct Hin as [<- | []].
    vm_compute in Hc. intuition discriminate.
Qed.

(** C4, as stated, fails: when the remote API cannot be reached the
    answer holds [podman_available] and [error] only; [host],
    [connection] and [mode] are missing. *)
Lemma health_check_failure_counterexample :
  ~ (exists v,
       fst (health_check (H := scripted []) api_config (scripted_state [] [] [])) = inr v
       /\ has_health_fields v).
Proof.
  intros (v & Hv & d & -> & _ & _ & Hhost & _).
  vm_compute in Hv. injection Hv as <-. apply Hhost. reflexivity.
Qed.

(** A remote API that reports version 4.9.3 is reported available, with
    that version. *)
Lemma health_check_always_answers_witness :
  backend_answered (H := scripted version_documents) api_config
    (scripted_state version_documents [Responded version_text] []) (JStr (py "4.9.3"))
  /\ fst (health_check (H := scripted version_documents) api_config
            (scripted_state version_documents [Responded version_text] []))
     = inr (JDict [(py "podman_available", JBool true);
                   (py "version", JStr (py "4.9.3"));
                   (py "host", JStr (py "tcp://localhost:8080"));
                   (py "connection", JStr (py "my-tcp"));
                   (py "mode", JStr (py "HTTP API"))]).
Proof.
  assert (Hanswered : backend_answered (H := scripted version_documents) api_config
                        (scripted_state version_documents [Responded version_text] [])
                        (JStr (py "4.9.3"))).
  { exists version_text, [(py "Version", JStr (py "4.9.3"))].
    split; [reflexivity|]. split; [|reflexivity].
    right. split; [discriminate | reflexivity]. }
  split; [exact Hanswered|].
  exact (proj1 (proj2 (health_check_always_answers (H := scripted version_documents) api_config
                         (scripted_state version_documents [Responded version_text] [])))
           _ Hanswered).
Defined.

(** C2, as stated, fails: through the remote API, in the batch [db],
    [a/b], [api] where the data of [db] holds a lone surrogate, [a/b] is
    the one entry that fails the name checks and the one backend call
    made, for [api], succeeds; yet the result holds two failures and one
    success, because [db] fails while its data is encoded, before any
    call. *)
Lemma bulk_unencodable_data_counterexample :
  ~ (name_ok (secret_named "a/b") = false ->
     Forall (fun s => name_ok s = true) ([surrogate_secret "db"] ++ [secret_named "api"]) ->
     Forall (fun ev => call_succeeded (H := scripted created_documents) ev = true)
       (calls_made
          (create_bulk_secrets api_config
             {| secrets := [surrogate_secret "db"] ++ secret_named "a/b" :: [secret_named "api"] |}
             sample_user)
          (scripted_state created_documents [Responded created_text] [])) ->
     exists succeeded error,
       fst (create_bulk_secrets (H := scripted created_documents) api_config
              {| secrets := [surrogate_secret "db"] ++ secret_named "a/b" :: [secret_named "api"] |}
              sample_user
              (scripted_state created_documents [Responded created_text] []))
       = inr (JDict [(py "success", JList succeeded);
                     (py "failed",
                      JList [JDict [(py "name", JStr (name (secret_named "a/b")));
                                    (py "error", JStr error)]])])
       /\ length succeeded
          = (length [surrogate_secret "db"] + length [secret_named "api"])%nat).
Proof.
  intros Hclaim.
  destruct Hclaim as (succeeded & error & Hrun & _).
  - reflexivity.
  - repeat constructor.
  - vm_compute. repeat constructor.
  - vm_compute in Hrun. discriminate Hrun.
Qed.

(** What that batch gives: [api] is created, and [db] and [a/b] are both
    filed as failures under their names as sent. *)
Example bulk_unencodable_data_outcome :
  fst (create_bulk_secrets (H := scripted created_documents) api_config
         {| secrets := [surrogate_secret "db"; secret_named "a/b"; secret_named "api"] |}
         sample_user (scripted_state created_documents [Responded created_text] []))
  = inr (JDict [(py "success",
                 JList [JDict [(py "id", JStr (py "id2")); (py "name", JStr (py "api"))]]);
                (py "failed",
                 JList [JDict [(py "name", JStr (py "db"));
                               (py "error",
                                JStr (sample_exn_str
                                        (UnicodeEncodeError (py "surrogates not allowed"))))];
                        JDict [(py "name", JStr (py "a/b"));
                               (py "error", JStr (py "Invalid characters in name"))]])])
  /\ calls_made
       (create_bulk_secrets (H := scripted created_documents) api_config
          {| secrets := [surrogate_secret "db"; secret_named "a/b"; secret_named "api"] |}
          sample_user)
       (scripted_state created_documents [Responded created_text] [])
     = [HttpEvent (create_request (H := scripted created_documents) api_config
                     (secret_named "api") (py "czNjcmV0"))
          (Responded created_text)].
Proof. split; vm_compute; reflexivity. Qed.

(** A create that the remote API answers with a success status and a body
    that is not a JSON object is filed as a failure too: the handler
    reads [ID] from the answer with [.get]. *)
Example bulk_non_object_answer_outcome :
  fst (create_bulk_secrets (H := scripted created_documents) api_config
         {| secrets := [secret_named "db"] |} sample_user
         (scripted_state created_documents [Responded (py "[]")] []))
  = inr (JDict [(py "success", JList []);
                (py "failed",
                 JList [JDict [(py "name", JStr (py "db"));
                               (py "error",
                                JStr (sample_exn_str (AttributeError (py "get"))))]])]).
Proof. vm_compute. reflexivity. Qed.

(** The batch [db], [a/b], [api] against a local Podman that creates both
    well-named secrets. *)
Lemma bulk_one_invalid_entry_witness :
  name_ok (secret_named "a/b") = false
  /\ Forall (fun s => dispatched cli_config s = true)
       ([secret_named "db"] ++ [secret_named "api"])
  /\ exists succeeded error,
       fst (create_bulk_secrets (H := scripted []) cli_config
              {| secrets := [secret_named "db"] ++ secret_named "a/b" :: [secret_named "api"] |}
              sample_user
              (scripted_state [] [] [Exited 0 (line "id1") []; Exited 0 (line "id2") []]))
       = inr (JDict [(py "success", JList succeeded);
                     (py "failed",
                      JList [JDict [(py "name", JStr (name (secret_named "a/b")));
                                    (py "error", JStr error)]])])
       /\ length succeeded = (length [secret_named "db"] + length [secret_named "api"])%nat.
Proof.
  split; [reflexivity|]. split; [repeat constructor|].
  apply (bulk_one_invalid_entry (H := scripted []) cli_config
           [secret_named "db"] (secret_named "a/b") [secret_named "api"] sample_user
           (scripted_state [] [] [Exited 0 (line "id1") []; Exited 0 (line "id2") []])).
  - reflexivity.
  - repeat constructor.
  - vm_compute. repeat constructor.
Defined.

(** One secret, listed and inspected through the remote API and through
    the local command. *)
Lemma backends_give_same_canonical_shape_witness :
  fst (list_secrets_response (H := scripted sample_documents) api_config sample_user
         (scripted_state sample_documents [Responded (json_array [remote_text])] []))
  = fst (list_secrets_response (H := scripted sample_documents) cli_config sample_user
           (scripted_state sample_documents []
              [Exited 0 (json_array [local_text false] ++ [10%N]) []]))
  /\ fst (list_secrets_response (H := scripted sample_documents) cli_config sample_user
            (scripted_state sample_documents []
               [Exited 0 (json_array [local_text false] ++ [10%N]) []]))
     = inr (JList (map canonical_summary [sample_info]))
  /\ fst (inspect_secret_response (H := scripted sample_documents) api_config (py "abc123")
            sample_user (scripted_state sample_documents [Responded remote_text] []))
     = fst (inspect_secret_response (H := scripted sample_documents) cli_config (py "abc123")
              sample_user
              (scripted_state sample_documents []
                 [Exited 0 (json_array [local_text true] ++ [10%N]) []]))
  /\ fst (inspect_secret_response (H := scripted sample_documents) cli_config (py "abc123")
            sample_user
            (scripted_state sample_documents []
               [Exited 0 (json_array [local_text true] ++ [10%N]) []]))
     = inr (canonical_detail sample_info).
Proof.
  apply (backends_give_same_canonical_shape (H := scripted sample_documents)
           api_config cli_config sample_user (py "abc123") [sample_info] sample_info
           [remote_value] [local_value false] remote_value (local_value true)).
  - reflexivity.
  - reflexivity.
  - exists (json_array [remote_text]). repeat split; vm_compute; reflexivity.
  - repeat constructor. exists (match remote_value with JDict d => d | _ => [] end).
    exists [(py "Name", JStr (py "file"))]. repeat split; vm_compute; reflexivity.
  - exists (json_array [local_text false] ++ [10%N]), []. repeat split; vm_compute; reflexivity.
  - repeat constructor. exists (match local_value false with JDict d => d | _ => [] end).
    repeat split; try (vm_compute; reflexivity). discriminate.
  - exists remote_text. repeat split; vm_compute; reflexivity.
  - exists (match remote_value with JDict d => d | _ => [] end).
    exists [(py "Name", JStr (py "file"))]. repeat split; vm_compute; reflexivity.
  - exists (json_array [local_text true] ++ [10%N]), []. repeat split; vm_compute; reflexivity.
  - exists (match local_value true with JDict d => d | _ => [] end).
    repeat split; vm_compute; reflexivity.
Defined.

(** The bootstrap administrator changes the password. *)
Lemma change_password_requires_current_password_witness :
  sample_db !! database.username sample_user = Some sample_user
  /\ change_password (H := sample_auth)
       {| current_password := py "guess"; new_password := py "hunter2" |}
       sample_user sample_db (py "pepper") 7
     = (inl (HTTPException HTTP_400_BAD_REQUEST (py "Current password is incorrect") []),
        sample_db)
  /\ database.hashed_password
       <$> (snd (change_password (H := sample_auth)
                   {| current_password := py "admin"; new_password := py "hunter2" |}
                   sample_user sample_db (py "pepper") 7)
              !! database.username sample_user)
     = Some (py "pepper$hunter2").
Proof.
  assert (Hstored : sample_db !! database.username sample_user = Some sample_user)
    by (vm_compute; reflexivity).
  split; [exact Hstored|]. split.
  - apply (change_password_requires_current_password (H := sample_auth)
             {| current_password := py "guess"; new_password := py "hunter2" |}
             sample_user sample_db (py "pepper") 7 Hstored).
    reflexivity.
  - apply (change_password_requires_current_password (H := sample_auth)
             {| current_password := py "admin"; new_password := py "hunter2" |}
             sample_user sample_db (py "pepper") 7 Hstored).
    reflexivity.
Defined.

(** A name of 253 letters is accepted and sent to the backend. *)
Lemma create_secret_longest_name_witness :
  ~ name_refused (strip (repeat 97%N 253))
  /\ exists ev w,
       snd (create_secret (H := scripted []) cli_config
              {| name := repeat 97%N 253; data := py "s3cret"; driver := None |}
              sample_user (scripted_state [] [] [Exited 0 (line "4f2a") []]))
       = log_call (scripted_state [] [] [Exited 0 (line "4f2a") []]) w ev
       /\ create_call (H := scripted []) cli_config (strip (repeat 97%N 253)) ev.
Proof.
  assert (Hok : ~ name_refused (strip (repeat 97%N 253))).
  { intros Hr.
    apply (name_ok_refused {| name := repeat 97%N 253; data := py "s3cret"; driver := None |})
      in Hr.
    vm_compute in Hr. discriminate. }
  split; [exact Hok|].
  destruct (create_secret_rejects_iff_stripped_name_refused (H := scripted []) cli_config
              {| name := repeat 97%N 253; data := py "s3cret"; driver := None |}
              sample_user (scripted_state [] [] [Exited 0 (line "4f2a") []]))
    as [_ [Hdispatch _]].
  exact (proj1 (Hdispatch Hok) (or_introl eq_refl)).
Defined.

(** The administrator logs in; a stranger and a wrong guess get the same
    failure. *)
Lemma login_uniform_failure_witness :
  login (H := sample_auth) {| login_username := py "admin"; login_password := py "admin" |}
    sample_db 0
  = inr (JDict [(py "access_token", JStr (py "token-for-admin"));
                (py "token_type", JStr (py "bearer"))])
  /\ login (H := sample_auth) {| login_username := py "nobody"; login_password := py "admin" |}
       sample_db 0
     = inl (HTTPException HTTP_401_UNAUTHORIZED (py "Incorrect username or password")
              [(py "WWW-Authenticate", py "Bearer")])
  /\ login (H := sample_auth) {| login_username := py "admin"; login_password := py "guess" |}
       sample_db 0
     = inl (HTTPException HTTP_401_UNAUTHORIZED (py "Incorrect username or password")
              [(py "WWW-Authenticate", py "Bearer")]).
Proof.
  split; [|split].
  - apply (proj1 (login_uniform_failure (H := sample_auth)
                    {| login_username := py "admin"; login_password := py "admin" |}
                    sample_db 0) sample_user); vm_compute; reflexivity.
  - apply (proj2 (login_uniform_failure (H := sample_auth)
                    {| login_username := py "nobody"; login_password := py "admin" |}
                    sample_db 0)).
    left. vm_compute. reflexivity.
  - apply (proj2 (login_uniform_failure (H := sample_auth)
                    {| login_username := py "admin"; login_password := py "guess" |}
                    sample_db 0)).
    right. exists sample_user. split; vm_compute; reflexivity.
Defined.

(** An unknown secret, deleted through the local command and through the
    remote API. *)
Lemma delete_secret_failures_are_structured_witness :
  fst (delete_secret (H := scripted []) cli_config (py "nope") sample_user
         (scripted_state [] [] [Exited 1 [] (line "no such secret")]))
  = inl (HTTPException HTTP_400_BAD_REQUEST
           (py "Failed to delete secret: " ++ line "no such secret") [])
  /\ fst (delete_secret (H := scripted []) api_config (py "nope") sample_user
            (scripted_state [] [StatusError 404 (py "no such secret")] []))
     = inl (HTTPException 404 (py "Podman API error: " ++ py "no such secret") []).
Proof.
  split.
  - apply (proj1 (delete_secret_failures_are_structured (H := scripted []) cli_config
                    (py "nope") sample_user
                    (scripted_state [] [] [Exited 1 [] (line "no such secret")]))
             eq_refl 1 [] (line "no such secret") eq_refl).
    discriminate.
  - apply (proj1 (proj2 (delete_secret_failures_are_structured (H := scripted []) api_config
                           (py "nope") sample_user
                           (scripted_state [] [StatusError 404 (py "no such secret")] [])))
             eq_refl 404 (py "no such secret") eq_refl).
Defined.


(** * Further properties of the handlers *)

(** ** The two transport functions *)

Section TransportProperties.
Context `{Runtime}.


(** [run_podman_command] starts one process, [podman] with the host or
    connection option and the arguments. A non-zero exit, output that is
    not JSON ([JSONDecodeError]) and a missing executable each become
    their own 500; blank output is the empty object; an exception of
    another kind, met while starting the process or while decoding its
    output, escapes as it is. *)
Theorem run_podman_command_failures cfg args st :
  snd (run_podman_command cfg args st) = after_proc st (podman_cmd cfg ++ args) None
  /\ (forall code stdout stderr,
        fst (run_process (podman_cmd cfg ++ args) None (world st)) = Exited code stdout stderr ->
        (code <> 0 ->
         fst (run_podman_command cfg args st)
         = inl (HTTPException 500 (py "Podman error: " ++ stderr) []))
        /\ (code = 0 -> strip stdout = [] ->
            fst (run_podman_command cfg args st) = inr (JDict []))
        /\ (code = 0 -> strip stdout <> [] ->
            match json_loads stdout with
            | inr v => fst (run_podman_command cfg args st) = inr v
            | inl (JSONDecodeError _) =>
                fst (run_podman_command cfg args st)
                = inl (HTTPException 500 (py "Failed to parse Podman output") [])
            | inl (CalledProcessError _ its_stderr) =>
                fst (run_podman_command cfg args st)
                = inl (HTTPException 500 (py "Podman error: " ++ its_stderr) [])
            | inl (FileNotFoundError _) =>
                fst (run_podman_command cfg args st)
                = inl (HTTPException 500 (py "Podman is not installed or not in PATH") [])
            | inl e => fst (run_podman_command cfg args st) = inl e
            end))
  /\ (forall msg,
        fst (run_process (podman_cmd cfg ++ args) None (world st))
        = SpawnError (FileNotFoundError msg) ->
        fst (run_podman_command cfg args st)
        = inl (HTTPException 500 (py "Podman is not installed or not in PATH") []))
  /\ (forall msg,
        fst (run_process (podman_cmd cfg ++ args) None (world st))
        = SpawnError (OtherError msg) ->
        fst (run_podman_command cfg args st) = inl (OtherError msg)).
Proof.
  rewrite run_podman_command_run. cbv zeta. cbn [fst snd].
  split; [reflexivity|]. unfold podman_result, run_result.
  split; [|split].
  - intros code stdout stderr ->. split; [|split].
    + intros Hcode. apply Z.eqb_neq in Hcode. rewrite Hcode. reflexivity.
    + intros -> Hblank. cbn [Z.eqb]. rewrite Hblank. reflexivity.
    + intros -> Hblank. apply str_truthy_nonempty in Hblank. cbn [Z.eqb]. rewrite Hblank.
      destruct (json_loads stdout) as [[]|v]; reflexivity.
  - intros msg ->. reflexivity.
  - intros msg ->. reflexivity.
Qed.

End TransportProperties.

(** ** Configuration *)

Lemma startswith_split (prefix s : str) :
  startswith s prefix = true -> s = prefix ++ drop (length prefix) s.
Proof.
  revert s. induction prefix as [|p prefix IH]; intros s Hs; simpl in *.
  - reflexivity.
  - destruct s as [|c s]; [discriminate|].
    apply andb_true_iff in Hs as [Hc Hs]. apply N.eqb_eq in Hc. subst c.
    simpl. f_equal. now apply IH.
Qed.

Lemma replace_tcp_prefix (rest : str) :
  replace (py "tcp://" ++ rest) (py "tcp://") (py "http://")
  = py "http://" ++ replace rest (py "tcp://") (py "http://").
Proof.
  unfold replace.
  change (py "tcp://") with [116; 99; 112; 58; 47; 47]%N.
  change (py "http://") with [104; 116; 116; 112; 58; 47; 47]%N.
  cbn. destruct rest; reflexivity.
Qed.

(** When the remote API is selected, [PODMAN_API_URL] is the host with
    its [tcp://] prefix (and every later occurrence of [tcp://]) turned
    into [http://]; otherwise it is [None]. The connection name defaults
    to [my-tcp]. *)
Theorem api_url_is_host_with_http_scheme (environ : gmap string str) :
  (USE_HTTP_API (load_config environ) = true ->
   exists rest,
     PODMAN_HOST (load_config environ) = py "tcp://" ++ rest
     /\ PODMAN_API_URL (load_config environ)
        = Some (py "http://" ++ replace rest (py "tcp://") (py "http://")))
  /\ (USE_HTTP_API (load_config environ) = false -> PODMAN_API_URL (load_config environ) = None)
  /\ (environ !! "PODMAN_CONNECTION"%string = None ->
      PODMAN_CONNECTION (load_config environ) = py "my-tcp").
Proof.
  unfold load_config. cbn [USE_HTTP_API PODMAN_API_URL PODMAN_HOST PODMAN_CONNECTION].
  split; [|split].
  - intros Huse. rewrite Huse. apply andb_true_iff in Huse as [_ Hpre].
    apply startswith_split in Hpre.
    exists (drop (length (py "tcp://")) (getenv environ "PODMAN_HOST" [])).
    split; [exact Hpre|]. rewrite Hpre at 1. now rewrite replace_tcp_prefix.
  - intros Huse. now rewrite Huse.
  - intros Hconn. unfold getenv. now rewrite Hconn.
Qed.

(** ** What each operation sends *)

Section CallProperties.
Context `{Runtime}.

(** Listing, inspecting, deleting and the health check each make exactly
    one backend call, whatever its outcome: the GET, DELETE or [podman]
    command the source spells, with the secret id as one path segment or
    one argument. *)
Theorem operations_make_one_call cfg secret_id user st :
  snd (list_secrets cfg user st)
  = (if USE_HTTP_API cfg
     then after_http st (api_request cfg (py "GET") (py "/secrets/json") [] None)
     else after_proc st (podman_cmd cfg ++ [py "secret"; py "ls"; py "--format"; py "json"]) None)
  /\ snd (inspect_secret cfg secret_id user st)
     = (if USE_HTTP_API cfg
        then after_http st
               (api_request cfg (py "GET") (py "/secrets/" ++ secret_id ++ py "/json") [] None)
        else after_proc st (podman_cmd cfg ++ [py "secret"; py "inspect"; secret_id]) None)
  /\ snd (delete_secret cfg secret_id user st)
     = (if USE_HTTP_API cfg
        then after_http st (api_request cfg (py "DELETE") (py "/secrets/" ++ secret_id) [] None)
        else after_proc st (podman_cmd cfg ++ [py "secret"; py "rm"; secret_id]) None)
  /\ snd (health_check cfg st)
     = (if USE_HTTP_API cfg
        then after_http st (api_request cfg (py "GET") (py "/version") [] None)
        else after_proc st (podman_cmd cfg ++ [py "version"; py "--format"; py "json"]) None).
Proof.
  split; [|split; [|split]].
  - unfold list_secrets, try_except. destruct (USE_HTTP_API cfg); unfold bind.
    + rewrite http_api_request_run. cbv zeta. cbn [fst snd].
      destruct (api_result _) as [e|v]; cbn [raise snd]; [reflexivity|].
      destruct (json_truthy v); cbn [negb ret snd]; [|reflexivity].
      destruct (py_iter v) as [e|items]; cbn [lift raise ret snd]; [reflexivity|].
      destruct (map_except transformed_secret items); reflexivity.
    + rewrite run_podman_command_run. cbv zeta. cbn [fst snd].
      destruct (podman_result _) as [e|v]; cbn [raise snd]; [reflexivity|].
      destruct (json_truthy v); reflexivity.
  - unfold inspect_secret, try_except. destruct (USE_HTTP_API cfg); unfold bind.
    + rewrite http_api_request_run. cbv zeta. cbn [fst snd].
      destruct (api_result _) as [e|v]; [destruct e; reflexivity|].
      destruct (json_truthy v); cbn [negb]; [|reflexivity].
      repeat match goal with
             | |- context [lift (py_get ?x ?k ?d)] =>
                 destruct (py_get x k d) as [[]|?]; cbn [lift raise ret]; try reflexivity
             end.
    + rewrite run_podman_command_run. cbv zeta. cbn [fst snd].
      destruct (podman_result _) as [e|v]; [destruct e; reflexivity|].
      destruct (json_truthy v); cbn [negb]; [|reflexivity].
      destruct (py_len v) as [[]|n]; cbn [lift raise ret]; try reflexivity.
      destruct (n =? 0)%nat; [reflexivity|].
      destruct (py_item0 v) as [[]|?]; reflexivity.
  - unfold delete_secret, try_except. destruct (USE_HTTP_API cfg); unfold bind.
    + rewrite http_api_request_run. cbv zeta. cbn [fst snd].
      destruct (api_result _) as [[]|v]; reflexivity.
    + rewrite subprocess_run_run.
      destruct (run_result _) as [[]|v]; reflexivity.
  - unfold health_check, try_except. destruct (USE_HTTP_API cfg); unfold bind.
    + rewrite http_api_request_run. cbv zeta. cbn [fst snd].
      destruct (api_result _) as [e|v]; [reflexivity|].
      destruct (py_get v _ _); reflexivity.
    + rewrite subprocess_run_run.
      destruct (run_result _) as [e|stdout]; [reflexivity|].
      destruct (json_loads stdout) as [e|v]; [reflexivity|].
      cbn [lift ret]. destruct (py_get v _ _) as [e|client]; [reflexivity|].
      cbn [lift ret]. destruct (py_get client _ _); reflexivity.
Qed.

End CallProperties.

(** ** Listing and inspecting *)

Section ReadProperties.
Context `{Runtime}.

Lemma map_except_Forall {A B : Type} (f : A -> exn + B) (P : B -> Prop) :
  (forall x y, f x = inr y -> P y) ->
  forall l l', map_except f l = inr l' -> Forall P l'.
Proof.
  intros Hf l. induction l as [|x l IH]; intros l' Hmap; simpl in Hmap.
  - injection Hmap as <-. constructor.
  - destruct (f x) as [e|y] eqn:Hx; simpl in Hmap; [discriminate|].
    destruct (map_except f l) as [e|ys]; simpl in Hmap; [discriminate|].
    injection Hmap as <-. constructor; [eapply Hf; eassumption | now apply IH].
Qed.

Lemma map_except_fails {A B : Type} (f : A -> exn + B) (P : exn -> Prop) :
  (forall x e, f x = inl e -> P e) ->
  forall l x,
    In x l -> (exists e, f x = inl e) -> exists e, map_except f l = inl e /\ P e.
Proof.
  intros Hf l. induction l as [|y l IH]; intros x Hin Hx; [destruct Hin|].
  simpl. destruct (f y) as [e|v] eqn:Hy; simpl.
  - exists e. split; [reflexivity | eapply Hf; eassumption].
  - destruct Hin as [-> | Hin].
    + destruct Hx as [e Hx]. congruence.
    + destruct (IH x Hin Hx) as (e & He & HP). rewrite He. simpl. now exists e.
Qed.

Lemma SecretResponse_shape v v' : SecretResponse v = inr v' -> summary_shape v'.
Proof.
  unfold SecretResponse, str_field, except_bind, summary_shape. destruct v; try discriminate.
  intros Hv.
  repeat match type of Hv with
         | context [match dict_lookup ?k ?d with _ => _ end] =>
             destruct (dict_lookup k d) as [[]|]; try discriminate
         end.
  injection Hv as <-. eauto 8.
Qed.

Lemma SecretDetail_shape v v' : SecretDetail v = inr v' -> detail_shape v'.
Proof.
  unfold SecretDetail, str_field, dict_field, except_bind, detail_shape.
  destruct v; try discriminate. intros Hv.
  repeat match type of Hv with
         | context [match dict_lookup ?k ?d with _ => _ end] =>
             destruct (dict_lookup k d) as [[]|]; try discriminate
         end.
  injection Hv as <-. eauto 8.
Qed.

(** Whatever the backend printed, a successful answer of the list route
    is a list of objects with exactly the fields [ID], [Name], [Driver],
    [CreatedAt] and [UpdatedAt], all strings. *)
Theorem list_response_has_five_string_fields cfg user st v :
  fst (list_secrets_response cfg user st) = inr v ->
  exists l, v = JList l /\ Forall summary_shape l.
Proof.
  unfold list_secrets_response, bind.
  destruct (list_secrets cfg user st) as [[e|r] st']; cbn [fst]; [discriminate|].
  unfold List_of. destruct r; try discriminate.
  destruct (map_except SecretResponse l) as [e|l'] eqn:Hmap; cbn; [discriminate|].
  intros [= <-]. exists l'. split; [reflexivity|].
  exact (map_except_Forall _ _ SecretResponse_shape _ _ Hmap).
Qed.

(** A successful answer of the inspect route is one object with the five
    string fields and a [Spec] dictionary. *)
Theorem inspect_response_has_detail_fields cfg secret_id user st v :
  fst (inspect_secret_response cfg secret_id user st) = inr v -> detail_shape v.
Proof.
  unfold inspect_secret_response, bind.
  destruct (inspect_secret cfg secret_id user st) as [[e|r] st']; cbn [fst]; [discriminate|].
  destruct (SecretDetail r) as [e|v'] eqn:Hd; cbn; [discriminate|].
  intros [= <-]. exact (SecretDetail_shape _ _ Hd).
Qed.

(** An answer that Python reads as false (an empty body or blank output,
    an empty list or object, [null]) lists as the empty list, under both
    backends. *)
Theorem list_of_nothing_is_empty cfg user st :
  (USE_HTTP_API cfg = true ->
   forall content,
     fst (http_send (api_request cfg (py "GET") (py "/secrets/json") [] None) (world st))
     = Responded content ->
     content = [] \/ (exists v, json_loads content = inr v /\ json_truthy v = false) ->
     fst (list_secrets_response cfg user st) = inr (JList []))
  /\ (USE_HTTP_API cfg = false ->
      forall stdout stderr,
        fst (run_process (podman_cmd cfg ++ [py "secret"; py "ls"; py "--format"; py "json"])
               None (world st))
        = Exited 0 stdout stderr ->
        strip stdout = [] \/ (exists v, json_loads stdout = inr v /\ json_truthy v = false) ->
        fst (list_secrets_response cfg user st) = inr (JList [])).
Proof.
  unfold list_secrets_response, list_secrets, try_except. split; intros Huse; rewrite Huse.
  - intros content Hout Hfalsy. unfold bind.
    rewrite http_api_request_run. cbv zeta. rewrite Hout. unfold api_result.
    destruct content as [|c content]; [reflexivity|].
    destruct Hfalsy as [Hnil | (v & Hv & Hf)]; [discriminate|].
    cbn [str_truthy]. rewrite Hv. cbn [fst snd]. rewrite Hf. reflexivity.
  - intros stdout stderr Hout Hfalsy. unfold bind.
    rewrite run_podman_command_run. cbv zeta. rewrite Hout. unfold podman_result, run_result.
    cbn [Z.eqb]. destruct (str_truthy (strip stdout)) eqn:Hblank; [|reflexivity].
    destruct Hfalsy as [Hnil | (v & Hv & Hf)].
    + rewrite Hnil in Hblank. discriminate.
    + rewrite Hv. cbn [fst snd]. rewrite Hf. reflexivity.
Qed.

Lemma transformed_secret_error x e :
  transformed_secret x = inl e -> exists msg, e = AttributeError msg.
Proof.
  unfold transformed_secret, except_bind. intros Hx.
  repeat match type of Hx with
         | context [py_get ?a ?k ?d] =>
             let E := fresh "E" in
             destruct (py_get a k d) eqn:E;
             [ unfold py_get in E; destruct a; try discriminate; injection E as <-;
               injection Hx as <-; eauto | ]
         end.
  discriminate.
Qed.

(** In the remote listing a secret without [Spec] gets the empty name and
    the driver [file], a secret whose [Spec] names no driver gets the
    driver [file], and missing [ID], [CreatedAt] and [UpdatedAt] are the
    empty string. *)
Theorem remote_listing_defaults (d : list (str * json)) :
  (dict_lookup (py "Spec") d = None ->
   transformed_secret (JDict d)
   = inr (JDict [(py "ID", get_or d (py "ID") (JStr []));
                 (py "Name", JStr []);
                 (py "Driver", JStr (py "file"));
                 (py "CreatedAt", get_or d (py "CreatedAt") (JStr []));
                 (py "UpdatedAt", get_or d (py "UpdatedAt") (JStr []))]))
  /\ (forall spec,
        dict_lookup (py "Spec") d = Some (JDict spec) ->
        dict_lookup (py "Driver") spec = None ->
        transformed_secret (JDict d)
        = inr (JDict [(py "ID", get_or d (py "ID") (JStr []));
                      (py "Name", get_or spec (py "Name") (JStr []));
                      (py "Driver", JStr (py "file"));
                      (py "CreatedAt", get_or d (py "CreatedAt") (JStr []));
                      (py "UpdatedAt", get_or d (py "UpdatedAt") (JStr []))])).
Proof.
  unfold transformed_secret, py_get, except_bind, get_or. split.
  - intros ->. reflexivity.
  - intros spec -> ->. reflexivity.
Qed.

(** When the remote listing holds an element that is not an object, the
    list handler does not answer with an [HTTPException]: the
    [AttributeError] of the failed [get] escapes. *)
Theorem remote_listing_of_non_objects_raises cfg user st content items item :
  USE_HTTP_API cfg = true ->
  fst (http_send (api_request cfg (py "GET") (py "/secrets/json") [] None) (world st))
  = Responded content ->
  content <> [] ->
  json_loads content = inr (JList items) ->
  In item items ->
  (forall d, item <> JDict d) ->
  exists msg, fst (list_secrets cfg user st) = inl (AttributeError msg).
Proof.
  intros Huse Hout Hne Hjson Hin Hitem.
  unfold list_secrets, try_except, bind. rewrite Huse.
  rewrite http_api_request_run. cbv zeta. rewrite Hout. unfold api_result.
  destruct content as [|c content]; [congruence|]. cbn [str_truthy]. rewrite Hjson.
  destruct items as [|i items]; [destruct Hin|].
  cbn [fst snd json_truthy negb py_iter lift ret].
  destruct (map_except_fails transformed_secret (fun e => exists msg, e = AttributeError msg)
              transformed_secret_error (i :: items) item Hin)
    as (e & He & msg & ->).
  - destruct item; try (eexists; reflexivity). destruct (Hitem d eq_refl).
  - rewrite He. exists msg. reflexivity.
Qed.

End ReadProperties.

(** ** Inspecting, deleting and creating: outcomes *)

Section OutcomeProperties.
Context `{Runtime}.

(** [inspect_secret] answers with a value or an [HTTPException] and
    nothing else. An answer Python reads as false is a 404 naming the id;
    an error status of the remote API keeps its code; a failed local
    command is a 500, not a 404; and of a printed array the first element
    is returned. *)
Theorem inspect_secret_outcomes cfg secret_id user st :
  structured (fst (inspect_secret cfg secret_id user st))
  /\ (USE_HTTP_API cfg = true ->
      fst (http_send (api_request cfg (py "GET") (py "/secrets/" ++ secret_id ++ py "/json")
                        [] None) (world st))
      = Responded [] ->
      fst (inspect_secret cfg secret_id user st)
      = inl (HTTPException 404 (py "Secret '" ++ secret_id ++ py "' not found") []))
  /\ (USE_HTTP_API cfg = true ->
      forall code text,
        fst (http_send (api_request cfg (py "GET") (py "/secrets/" ++ secret_id ++ py "/json")
                          [] None) (world st))
        = StatusError code text ->
        fst (inspect_secret cfg secret_id user st)
        = inl (HTTPException code (py "Podman API error: " ++ text) []))
  /\ (USE_HTTP_API cfg = false ->
      forall code stdout stderr,
        fst (run_process (podman_cmd cfg ++ [py "secret"; py "inspect"; secret_id]) None
               (world st))
        = Exited code stdout stderr ->
        (code <> 0 ->
         fst (inspect_secret cfg secret_id user st)
         = inl (HTTPException 500 (py "Podman error: " ++ stderr) []))
        /\ (code = 0 -> strip stdout = [] ->
            fst (inspect_secret cfg secret_id user st)
            = inl (HTTPException 404 (py "Secret '" ++ secret_id ++ py "' not found") []))
        /\ (code = 0 -> strip stdout <> [] ->
            forall first rest,
              json_loads stdout = inr (JList (first :: rest)) ->
              fst (inspect_secret cfg secret_id user st) = inr first)).
Proof.
  unfold inspect_secret, try_except. split; [|split; [|split; [|]]].
  - destruct (USE_HTTP_API cfg); unfold bind.
    + rewrite http_api_request_run. cbv zeta. cbn [fst snd].
      destruct (api_result _) as [e|v]; [destruct e; exact I|].
      destruct (json_truthy v); cbn [negb]; [|exact I].
      repeat match goal with
             | |- context [lift (py_get ?x ?k ?d)] =>
                 destruct (py_get x k d) as [[]|?]; cbn [lift raise ret fst]; try exact I
             end.
    + rewrite run_podman_command_run. cbv zeta. cbn [fst snd].
      destruct (podman_result _) as [e|v]; [destruct e; exact I|].
      destruct (json_truthy v); cbn [negb]; [|exact I].
      destruct (py_len v) as [[]|n]; cbn [lift raise ret fst]; try exact I.
      destruct (n =? 0)%nat; [exact I|].
      destruct (py_item0 v) as [[]|?]; exact I.
  - intros Huse Hout. rewrite Huse. unfold bind.
    rewrite http_api_request_run. cbv zeta. rewrite Hout. reflexivity.
  - intros Huse code text Hout. rewrite Huse. unfold bind.
    rewrite http_api_request_run. cbv zeta. rewrite Hout. reflexivity.
  - intros Huse code stdout stderr Hout. rewrite Huse. unfold bind.
    rewrite run_podman_command_run. cbv zeta. rewrite Hout. unfold podman_result, run_result.
    split; [|split].
    + intros Hcode. apply Z.eqb_neq in Hcode. rewrite Hcode. reflexivity.
    + intros -> Hblank. cbn [Z.eqb]. rewrite Hblank. reflexivity.
    + intros -> Hblank first rest Hjson.
      apply str_truthy_nonempty in Hblank. cbn [Z.eqb]. rewrite Hblank, Hjson. reflexivity.
Qed.

(** A successful delete always answers with the message that names the
    id; with the local command it succeeds exactly when the process exits
    with status 0, with the remote API exactly when the service answers a
    success status with an empty or decodable body. *)
Theorem delete_secret_success cfg secret_id user st :
  (forall v,
     fst (delete_secret cfg secret_id user st) = inr v ->
     v = JDict [(py "message",
                 JStr (py "Secret '" ++ secret_id ++ py "' deleted successfully"))])
  /\ (USE_HTTP_API cfg = false ->
      ((exists v, fst (delete_secret cfg secret_id user st) = inr v)
       <-> exists stdout stderr,
             fst (run_process (podman_cmd cfg ++ [py "secret"; py "rm"; secret_id]) None
                    (world st))
             = Exited 0 stdout stderr))
  /\ (USE_HTTP_API cfg = true ->
      ((exists v, fst (delete_secret cfg secret_id user st) = inr v)
       <-> exists content,
             fst (http_send (api_request cfg (py "DELETE") (py "/secrets/" ++ secret_id)
                               [] None) (world st))
             = Responded content
             /\ (content = [] \/ exists v, json_loads content = inr v))).
Proof.
  unfold delete_secret, try_except. split; [|split].
  - intros v. destruct (USE_HTTP_API cfg); unfold bind.
    + rewrite http_api_request_run. cbv zeta. cbn [fst snd].
      destruct (api_result _) as [[]|j]; cbn; intros [=]; now subst.
    + rewrite subprocess_run_run.
      destruct (run_result _) as [[]|j]; cbn; intros [=]; now subst.
  - intros Huse. rewrite Huse. unfold bind. rewrite subprocess_run_run. unfold run_result.
    destruct (fst (run_process _ _ _)) as [code out err|e]; cbn [fst snd].
    + destruct (code =? 0) eqn:Hcode; cbn.
      * apply Z.eqb_eq in Hcode. subst code. split; eauto.
      * split; [intros [v [=]]|]. intros (o & e & [=]). subst. discriminate.
    + split.
      * destruct e; intros [v [=]].
      * intros (o & e' & [=]).
  - intros Huse. rewrite Huse. unfold bind.
    rewrite http_api_request_run. cbv zeta. unfold api_result.
    destruct (fst (http_send _ _)) as [content|code text|e]; cbn [fst snd].
    + destruct content as [|c content]; cbn [str_truthy].
      * split; [intros _; exists []; split; [reflexivity | now left] | intros _; eexists; reflexivity].
      * destruct (json_loads (c :: content)) as [e|j] eqn:Hj; cbn.
        -- split; [destruct e; intros [v [=]]|].
           intros (content' & [= <-] & [Hnil | [j Hsome]]); [discriminate | congruence].
        -- split; [|intros _; eexists; reflexivity].
           intros _. exists (c :: content). split; [reflexivity|]. right. eauto.
    + split; [intros [v [=]] | intros (content & [=] & _)].
    + split; [destruct e; intros [v [=]] | intros (content & [=] & _)].
Qed.

(** For a name that passes the checks, [create_secret] answers with a
    value or an [HTTPException] and nothing else. The local command's
    exit status decides between the created message, with the trimmed
    output as id, and a 400 carrying the error stream; a missing
    executable is a 500 carrying the exception's text. With the remote
    API, data that cannot be encoded is a 500 without any request;
    otherwise the request carries the encoded data, an error status is
    passed on, an object answer gives the id ([ID], or the empty string),
    and an answer that is not an object is a 500. *)
Theorem create_secret_outcomes cfg secret user st :
  name_ok secret = true ->
  structured (fst (create_secret cfg secret user st))
  /\ (USE_HTTP_API cfg = false ->
      (forall code stdout stderr,
         fst (run_process (create_command cfg secret) (Some (data secret)) (world st))
         = Exited code stdout stderr ->
         fst (create_secret cfg secret user st)
         = if code =? 0
           then inr (created_message (JStr (strip stdout)) (strip (name secret)))
           else inl (HTTPException 400 (py "Failed to create secret: " ++ stderr) []))
      /\ (forall msg,
            fst (run_process (create_command cfg secret) (Some (data secret)) (world st))
            = SpawnError (FileNotFoundError msg) ->
            fst (create_secret cfg secret user st)
            = inl (HTTPException 500 (exn_str (FileNotFoundError msg)) [])))
  /\ (USE_HTTP_API cfg = true ->
      (forall e,
         utf8_encode (data secret) = inl e ->
         create_secret cfg secret user st = (inl (HTTPException 500 (exn_str e) []), st))
      /\ (forall bytes,
            utf8_encode (data secret) = inr bytes ->
            (forall code text,
               fst (http_send (create_request cfg secret (b64encode bytes)) (world st))
               = StatusError code text ->
               fst (create_secret cfg secret user st)
               = inl (HTTPException code (py "Podman API error: " ++ text) []))
            /\ (fst (http_send (create_request cfg secret (b64encode bytes)) (world st))
                = Responded [] ->
                fst (create_secret cfg secret user st)
                = inr (created_message (JStr []) (strip (name secret))))
            /\ (forall content v,
                  fst (http_send (create_request cfg secret (b64encode bytes)) (world st))
                  = Responded content ->
                  content <> [] ->
                  json_loads content = inr v ->
                  match v with
                  | JDict d =>
                      fst (create_secret cfg secret user st)
                      = inr (created_message (get_or d (py "ID") (JStr []))
                               (strip (name secret)))
                  | _ =>
                      exists msg,
                        fst (create_secret cfg secret user st)
                        = inl (HTTPException 500 (exn_str (AttributeError msg)) [])
                  end))).
Proof.
  intros Hok. split; [|split].
  - destruct (dispatched cfg secret) eqn:Hd.
    + destruct (dispatched_true _ _ Hd) as [_ Hsend]. destruct (name_ok_true _ Hok) as [Hlen Hch].
      unfold create_secret. rewrite Hlen, Hch. unfold try_except.
      destruct (USE_HTTP_API cfg); unfold bind.
      * destruct Hsend as [Hcli | [bytes Henc]]; [discriminate|].
        unfold b64encode_utf8. rewrite Henc. cbn [lift ret].
        rewrite http_api_request_run. cbv zeta. cbn [fst snd].
        destruct (api_result _) as [e|v]; [destruct e; exact I|].
        destruct (py_get v _ _) as [[]|?]; exact I.
      * rewrite popen_communicate_run.
        destruct (fst (run_process _ _ _)) as [code out err|e]; cbn [fst snd].
        -- destruct (code =? 0); exact I.
        -- destruct e; exact I.
    + destruct (dispatched_false _ _ Hd) as [Hbad | (_ & Huse & e & Henc)]; [congruence|].
      rewrite (create_secret_unsent cfg secret user st e Hok Huse Henc). exact I.
  - destruct (name_ok_true _ Hok) as [Hlen Hch].
    unfold create_secret, create_command.
    rewrite Hlen, Hch, stripped_name_strip. unfold try_except.
    intros Huse. rewrite Huse. unfold bind. rewrite popen_communicate_run. split.
    + intros code stdout stderr ->. cbn [fst snd]. destruct (code =? 0); reflexivity.
    + intros msg ->. reflexivity.
  - intros Huse. split.
    + intros e Henc. now apply create_secret_unsent.
    + intros bytes Henc. destruct (name_ok_true _ Hok) as [Hlen Hch].
      unfold create_secret, create_request.
      rewrite Hlen, Hch, stripped_name_strip, Huse. unfold try_except, bind, b64encode_utf8.
      rewrite Henc. cbn [lift ret]. rewrite http_api_request_run. cbv zeta.
      unfold api_result. split; [|split].
      * intros code text ->. reflexivity.
      * intros ->. reflexivity.
      * intros content v -> Hne Hv. destruct content as [|c content]; [congruence|].
        cbn [str_truthy]. rewrite Hv. cbn [fst snd].
        destruct v; first [reflexivity | eexists; reflexivity].
Qed.

End OutcomeProperties.

(** ** Single create and bulk create side by side *)

Section BulkProperties.
Context `{Runtime}.

(** From the same state and for the same entry, [create_secret] and one
    turn of the bulk loop make the same backend call, and either both
    succeed with the same id and the same stripped name, or the single
    create raises and the bulk loop records a failure. *)
Theorem create_and_bulk_step_agree cfg secret user results st :
  snd (create_secret cfg secret user st) = snd (bulk_step cfg results secret st)
  /\ ((exists secret_id,
         fst (create_secret cfg secret user st)
         = inr (created_message secret_id (strip (name secret)))
         /\ fst (bulk_step cfg results secret st)
            = inr (append_success results secret_id (strip (name secret))))
      \/ (exists e nm error,
            fst (create_secret cfg secret user st) = inl e
            /\ fst (bulk_step cfg results secret st)
               = inr (append_failed results nm error))).
Proof.
  destruct (dispatched cfg secret) eqn:Hd.
  - destruct (dispatched_true _ _ Hd) as [Hok Hsend].
    destruct (name_ok_true _ Hok) as [Hlen Hch].
    unfold create_secret, bulk_step, created_message.
    rewrite Hlen, Hch, stripped_name_strip. unfold try_except.
    destruct (USE_HTTP_API cfg); unfold bind.
    + destruct Hsend as [Hcli | [bytes Henc]]; [discriminate|].
      unfold b64encode_utf8. rewrite Henc. cbn [lift ret].
      rewrite http_api_request_run. cbv zeta. cbn [fst snd].
      destruct (api_result _) as [e|v]; cbn [fst snd raise ret].
      * split; [destruct e; reflexivity|]. right. destruct e; eauto 6.
      * destruct (py_get v _ _) as [e|secret_id]; cbn [lift fst snd raise ret].
        -- split; [destruct e; reflexivity|]. right. destruct e; eauto 6.
        -- split; [reflexivity|]. left. eauto.
    + rewrite popen_communicate_run.
      destruct (fst (run_process _ _ _)) as [code out err|e]; cbn [fst snd raise ret].
      * destruct (code =? 0); cbn [negb fst snd raise ret].
        -- split; [reflexivity|]. left. eauto.
        -- split; [reflexivity|]. right. eauto 6.
      * split; [destruct e; reflexivity|]. right. destruct e; eauto 6.
  - destruct (dispatched_false _ _ Hd) as [Hbad | (Hok & Huse & e & Henc)].
    + destruct (create_secret_refused cfg secret user st Hbad) as [detail Hc].
      destruct (bulk_step_refused cfg results secret st Hbad) as [err Hb].
      rewrite Hc, Hb. split; [reflexivity|]. right. eauto 6.
    + rewrite (create_secret_unsent cfg secret user st e Hok Huse Henc).
      rewrite (bulk_step_unsent cfg results secret st e Hok Huse Henc).
      split; [reflexivity|]. right. eauto 6.
Qed.

Lemma bulk_run_calls_in_order cfg entries results evs final :
  bulk_run cfg entries results evs final ->
  Forall2 (fun ev entry => create_call cfg (strip (name entry)) ev)
    evs (List.filter (dispatched cfg) entries).
Proof.
  induction 1 as [r | s l r err evs fin Hbad Hrun IH
                  | s l r ev sid evs fin Hok Hc Hu Hs Hrun IH
                  | s l r ev nm err evs fin Hok Hc Hu Hs Hrun IH];
    simpl; rewrite ?Hbad, ?Hok; try constructor; assumption.
Qed.

(** A bulk create makes one backend call for each entry that is sent (its
    name passes the checks and, for the remote API, its data can be
    encoded), in the order of the entries, each a create for the stripped
    name of its entry; the other entries and an empty batch cause no
    call. *)
Theorem bulk_calls_follow_valid_entries cfg bulk user st :
  Forall2 (fun ev entry => create_call cfg (strip (name entry)) ev)
    (calls_made (create_bulk_secrets cfg bulk user) st)
    (List.filter (dispatched cfg) (secrets bulk)).
Proof.
  destruct (create_bulk_secrets_run cfg bulk user st) as (final & st' & evs & Hrun & Hcalls & Hrel).
  rewrite (calls_made_eq _ _ evs) by (rewrite Hrun; exact Hcalls).
  eapply bulk_run_calls_in_order; eassumption.
Qed.

Lemma bulk_run_success_order cfg entries results evs final :
  bulk_run cfg entries results evs final ->
  exists chosen,
    sublist (map snd chosen) entries
    /\ Forall (fun c => name_ok (snd c) = true) chosen
    /\ success final = success results ++ map success_entry chosen.
Proof.
  induction 1 as [r | s l r err evs fin Hbad Hrun IH
                  | s l r ev sid evs fin Hok Hc Hu Hs Hrun IH
                  | s l r ev nm err evs fin Hok Hc Hu Hs Hrun IH].
  - exists []. simpl. rewrite app_nil_r. repeat split; constructor.
  - destruct IH as (chosen & Hsub & Hall & Hsucc). exists chosen.
    split; [now apply sublist_cons|]. split; assumption.
  - destruct IH as (chosen & Hsub & Hall & Hsucc). exists ((sid, s) :: chosen).
    split; [simpl; now apply sublist_skip|].
    split; [constructor; [exact (proj1 (dispatched_true _ _ Hok)) | assumption]|].
    rewrite Hsucc. simpl. now rewrite <- app_assoc.
  - destruct IH as (chosen & Hsub & Hall & Hsucc). exists chosen.
    split; [now apply sublist_cons|]. split; assumption.
Qed.

(** The successes of a bulk create stand in the order of the batch: they
    are the entries of a sub-sequence of the input, all with names that
    pass the checks, each reported with its id and its stripped name. *)
Theorem bulk_successes_keep_input_order cfg bulk user st :
  exists chosen refused,
    fst (create_bulk_secrets cfg bulk user st)
    = inr (JDict [(py "success", JList (map success_entry chosen));
                  (py "failed", JList refused)])
    /\ sublist (map snd chosen) (secrets bulk)
    /\ Forall (fun c => name_ok (snd c) = true) chosen.
Proof.
  destruct (create_bulk_secrets_run cfg bulk user st) as (final & st' & evs & Hrun & Hcalls & Hrel).
  destruct (bulk_run_success_order _ _ _ _ _ Hrel) as (chosen & Hsub & Hall & Hsucc).
  exists chosen, (failed final). rewrite Hrun. unfold results_json. rewrite Hsucc.
  repeat split; assumption.
Qed.

End BulkProperties.

(** ** Names that reach the backend *)

Section NameProperties.
Context `{Runtime}.

Lemma lstrip_head (s : str) (c : char) : head (lstrip s) = Some c -> isspace c = false.
Proof.
  induction s as [|a s IH]; simpl; [discriminate|].
  destruct (isspace a) eqn:Ha; [exact IH|]. simpl. intros [= <-]. exact Ha.
Qed.

Lemma lstrip_suffix (s : str) : exists pre, s = pre ++ lstrip s.
Proof.
  induction s as [|a s [pre IH]]; simpl; [now exists []|].
  destruct (isspace a); [|now exists []].
  exists (a :: pre). simpl. now f_equal.
Qed.

Lemma rstrip_prefix (t : str) : exists post, t = rstrip t ++ post.
Proof.
  unfold rstrip. destruct (lstrip_suffix (rev t)) as [pre Hpre].
  exists (rev pre). rewrite <- rev_app_distr, <- Hpre. symmetry. apply rev_involutive.
Qed.

Lemma last_rev_head {A : Type} (x : list A) : last (rev x) = head x.
Proof.
  destruct x as [|a x]; [reflexivity|]. simpl. apply last_snoc.
Qed.

Lemma strip_head (s : str) (c : char) : head (strip s) = Some c -> isspace c = false.
Proof.
  unfold strip. intros Hc. apply (lstrip_head s).
  destruct (rstrip_prefix (lstrip s)) as [post Hpost]. rewrite Hpost.
  destruct (rstrip (lstrip s)); [discriminate | exact Hc].
Qed.

Lemma strip_last (s : str) (c : char) : last (strip s) = Some c -> isspace c = false.
Proof.
  unfold strip, rstrip. rewrite last_rev_head. apply lstrip_head.
Qed.

Lemma name_ok_sendable (secret : SecretCreate) :
  name_ok secret = true -> sendable (strip (name secret)).
Proof.
  intros Hok. destruct (name_ok_true _ Hok) as [Hlen Hch].
  rewrite stripped_name_strip in Hlen, Hch.
  assert (Hl : ~ (strip (name secret) = [] \/ (253 < length (strip (name secret)))%nat))
    by (rewrite <- bad_length_spec; congruence).
  assert (Hc : ~ exists c, In c forbidden_chars /\ In c (strip (name secret)))
    by (rewrite <- has_forbidden_char_spec; congruence).
  split; [tauto|]. split; [lia|]. split; [|split].
  - intros c Hin Hnm. apply Hc. now exists c.
  - apply strip_head.
  - apply strip_last.
Qed.

Lemma Forall2_pick {A B : Type} (R : A -> B -> Prop) (l : list A) (k : list B) :
  Forall2 R l k -> Forall (fun x => exists y, In y k /\ R x y) l.
Proof.
  induction 1 as [|x y l k Hxy Hall IH]; constructor.
  - exists y. split; [now left | assumption].
  - eapply Forall_impl; [exact IH|]. intros x' (y' & Hin & Hr). exists y'. split; [now right | assumption].
Qed.

(** Every create request that reaches Podman, from the single create or
    from the bulk create, carries the stripped name of its entry, and that
    name is not empty, at most 253 characters long, free of [=], [/],
    [,] and NUL, and has no white space at either end. *)
Theorem every_create_call_carries_a_sendable_name cfg secret bulk user st :
  Forall (fun ev => create_call cfg (strip (name secret)) ev
                    /\ sendable (strip (name secret)))
    (calls_made (create_secret cfg secret user) st)
  /\ Forall (fun ev => exists entry,
               In entry (secrets bulk)
               /\ create_call cfg (strip (name entry)) ev
               /\ sendable (strip (name entry)))
       (calls_made (create_bulk_secrets cfg bulk user) st).
Proof.
  split.
  - destruct (dispatched cfg secret) eqn:Hd.
    + destruct (create_secret_dispatched cfg secret user st Hd) as (ev & w & Hst & Hcall & _).
      rewrite (calls_made_eq _ _ [ev]) by (rewrite Hst; reflexivity).
      constructor; [split; [assumption|] | constructor].
      apply name_ok_sendable. exact (proj1 (dispatched_true _ _ Hd)).
    + rewrite (calls_made_eq _ _ [])
        by (rewrite (create_secret_not_dispatched _ _ _ _ Hd); now rewrite app_nil_r).
      constructor.
  - destruct (create_bulk_secrets_run cfg bulk user st) as (final & st' & evs & Hrun & Hcalls & Hrel).
    rewrite (calls_made_eq _ _ evs) by (rewrite Hrun; exact Hcalls).
    eapply Forall_impl; [exact (Forall2_pick _ _ _ (bulk_run_calls_in_order _ _ _ _ _ Hrel))|].
    intros ev (entry & Hin & Hcall). apply filter_In in Hin as [Hin Hd].
    exists entry. split; [assumption|]. split; [assumption|].
    apply name_ok_sendable. exact (proj1 (dispatched_true _ _ Hd)).
Qed.

End NameProperties.

(** ** The credential store and the authentication endpoints together *)

Section StoreProperties.
Context `{Auth}.

(** [init_db] leaves every existing row as it is (an existing [admin]
    keeps its password), adds the [admin] row, hashed from the password
    [admin], when there is none, and changes nothing when run again. *)
Theorem init_db_only_adds_admin (salt : Salt) (now : Z) (db : gmap str User) :
  is_Some (init_db salt now db !! py "admin")
  /\ (forall k u, db !! k = Some u -> init_db salt now db !! k = Some u)
  /\ (forall k, k <> py "admin" -> init_db salt now db !! k = db !! k)
  /\ (db !! py "admin" = None ->
      database.hashed_password <$> (init_db salt now db !! py "admin")
      = Some (get_password_hash salt (py "admin")))
  /\ (forall salt' now', init_db salt' now' (init_db salt now db) = init_db salt now db).
Proof.
  unfold init_db. destruct (db !! py "admin") as [admin|] eqn:Hadmin.
  - rewrite Hadmin. repeat split; eauto. discriminate.
  - rewrite lookup_insert_eq. split; [eauto|]. split; [|split; [|split]].
    + intros k u Hk. rewrite lookup_insert_ne; [assumption | congruence].
    + intros k Hk. now rewrite lookup_insert_ne.
    + reflexivity.
    + reflexivity.
Qed.

(** After [init_db] on a table without [admin], logging in as [admin]
    with the password [admin] returns a token, provided the hash that was
    stored verifies its own password. *)
Theorem bootstrap_admin_can_log_in (salt : Salt) (now now' : Z) (db : gmap str User) :
  db !! py "admin" = None ->
  verify_password (py "admin") (get_password_hash salt (py "admin")) = true ->
  login {| login_username := py "admin"; login_password := py "admin" |}
    (init_db salt now db) now'
  = inr (JDict [(py "access_token",
                 JStr (create_access_token (py "admin") ACCESS_TOKEN_EXPIRE_MINUTES now'));
                (py "token_type", JStr (py "bearer"))]).
Proof.
  intros Hadmin Hverify. unfold login, authenticate_user, init_db.
  rewrite Hadmin. cbn [login_username login_password]. rewrite lookup_insert_eq.
  cbn [database.hashed_password database.username]. rewrite Hverify. reflexivity.
Qed.

(** After a successful password change, a login with the new password
    returns a token (provided the new hash verifies the new password),
    and a login with any password the new hash does not verify, the old
    one included, fails with 401. *)
Theorem changed_password_takes_effect
    (password_change : PasswordChange) (current_user : User)
    (db : gmap str User) (salt : Salt) (now now' : Z) :
  db !! database.username current_user = Some current_user ->
  verify_password (current_password password_change)
    (database.hashed_password current_user) = true ->
  (verify_password (new_password password_change)
     (get_password_hash salt (new_password password_change)) = true ->
   login {| login_username := database.username current_user;
            login_password := new_password password_change |}
     (snd (change_password password_change current_user db salt now)) now'
   = inr (JDict [(py "access_token",
                  JStr (create_access_token (database.username current_user)
                          ACCESS_TOKEN_EXPIRE_MINUTES now'));
                 (py "token_type", JStr (py "bearer"))]))
  /\ (forall guess,
        verify_password guess (get_password_hash salt (new_password password_change)) = false ->
        login {| login_username := database.username current_user; login_password := guess |}
          (snd (change_password password_change current_user db salt now)) now'
        = inl (HTTPException HTTP_401_UNAUTHORIZED (py "Incorrect username or password")
                 [(py "WWW-Authenticate", py "Bearer")])).
Proof.
  intros Hstored Hverify. unfold change_password. rewrite Hverify. cbn [negb snd].
  unfold login, authenticate_user. cbn [login_username login_password].
  rewrite lookup_insert_eq. cbn [database.hashed_password database.username].
  split.
  - intros Hnew. rewrite Hnew. reflexivity.
  - intros guess Hguess. rewrite Hguess. reflexivity.
Qed.

(** A password change, successful or not, neither adds nor removes a
    user, and the user's row keeps its id, username and creation time. *)
Theorem change_password_keeps_the_users
    (password_change : PasswordChange) (current_user : User)
    (db : gmap str User) (salt : Salt) (now : Z) :
  db !! database.username current_user = Some current_user ->
  dom (snd (change_password password_change current_user db salt now)) = dom db
  /\ exists row,
       snd (change_password password_change current_user db salt now)
         !! database.username current_user = Some row
       /\ database.id row = database.id current_user
       /\ database.username row = database.username current_user
       /\ database.created_at row = database.created_at current_user.
Proof.
  intros Hstored. unfold change_password.
  destruct (verify_password _ _); cbn [negb snd].
  - split.
    + apply dom_insert_lookup_L. eauto.
    + rewrite lookup_insert_eq. eexists. split; [reflexivity|]. repeat split.
  - split; [reflexivity|]. exists current_user. repeat split. assumption.
Qed.

End StoreProperties.

(** ** White space around a name *)

Section WhitespaceProperties.
Context `{Runtime}.

Lemma lstrip_fixed (s : str) :
  (forall c, head s = Some c -> isspace c = false) -> lstrip s = s.
Proof.
  destruct s as [|a s]; [reflexivity|]. intros Hs. simpl. now rewrite (Hs a eq_refl).
Qed.

Lemma rstrip_fixed (s : str) :
  (forall c, last s = Some c -> isspace c = false) -> rstrip s = s.
Proof.
  intros Hs. unfold rstrip. rewrite lstrip_fixed; [apply rev_involutive|].
  intros c Hc. apply Hs. rewrite <- (rev_involutive s). now rewrite last_rev_head.
Qed.

Lemma strip_idempotent (s : str) : strip (strip s) = strip s.
Proof.
  unfold strip at 1. rewrite (lstrip_fixed (strip s)) by apply strip_head.
  apply rstrip_fixed, strip_last.
Qed.

(** White space around the name makes no difference to a single create:
    the request with the stripped name gets the same answer and causes
    the same backend call as the request as sent. *)
Theorem surrounding_whitespace_is_insignificant cfg secret user st :
  create_secret cfg
    {| name := strip (name secret); data := data secret; driver := driver secret |} user st
  = create_secret cfg secret user st.
Proof.
  unfold create_secret. cbn [name data driver].
  rewrite !stripped_name_strip, strip_idempotent. reflexivity.
Qed.

End WhitespaceProperties.

(** ** The further properties on concrete requests *)

Lemma list_response_has_five_string_fields_witness :
  fst (list_secrets_response (H := scripted sample_documents) api_config sample_user
         (scripted_state sample_documents [Responded (json_array [remote_text])] []))
  = inr (JList [canonical_summary sample_info])
  /\ exists l, JList [canonical_summary sample_info] = JList l /\ Forall summary_shape l.
Proof.
  assert (Hrun :
    fst (list_secrets_response (H := scripted sample_documents) api_config sample_user
           (scripted_state sample_documents [Responded (json_array [remote_text])] []))
    = inr (JList [canonical_summary sample_info])) by (vm_compute; reflexivity).
  split; [exact Hrun|].
  exact (list_response_has_five_string_fields (H := scripted sample_documents) api_config
           sample_user (scripted_state sample_documents [Responded (json_array [remote_text])] [])
           (JList [canonical_summary sample_info]) Hrun).
Defined.

Lemma inspect_response_has_detail_fields_witness :
  fst (inspect_secret_response (H := scripted sample_documents) cli_config (py "abc123")
         sample_user
         (scripted_state sample_documents []
            [Exited 0 (json_array [local_text true] ++ [10%N]) []]))
  = inr (canonical_detail sample_info)
  /\ detail_shape (canonical_detail sample_info).
Proof.
  assert (Hrun :
    fst (inspect_secret_response (H := scripted sample_documents) cli_config (py "abc123")
           sample_user
           (scripted_state sample_documents []
              [Exited 0 (json_array [local_text true] ++ [10%N]) []]))
    = inr (canonical_detail sample_info)) by (vm_compute; reflexivity).
  split; [exact Hrun|].
  exact (inspect_response_has_detail_fields (H := scripted sample_documents) cli_config
           (py "abc123") sample_user
           (scripted_state sample_documents []
              [Exited 0 (json_array [local_text true] ++ [10%N]) []])
           (canonical_detail sample_info) Hrun).
Defined.

Lemma remote_listing_of_non_objects_raises_witness :
  exists msg,
    fst (list_secrets (H := scripted names_only_documents) api_config sample_user
           (scripted_state names_only_documents
              [Responded (json_array [quoted "abc123"])] []))
    = inl (AttributeError msg).
Proof.
  apply (remote_listing_of_non_objects_raises (H := scripted names_only_documents)
           api_config sample_user
           (scripted_state names_only_documents [Responded (json_array [quoted "abc123"])] [])
           (json_array [quoted "abc123"]) [JStr (py "abc123")] (JStr (py "abc123"))).
  - reflexivity.
  - reflexivity.
  - discriminate.
  - vm_compute. reflexivity.
  - now left.
  - discriminate.
Defined.

Lemma create_secret_outcomes_witness :
  name_ok (secret_named "db") = true
  /\ structured
       (fst (create_secret (H := scripted []) cli_config (secret_named "db") sample_user
               (scripted_state [] [] [Exited 125 [] (line "secret name in use")]))).
Proof.
  assert (Hok : name_ok (secret_named "db") = true) by reflexivity.
  split; [exact Hok|].
  exact (proj1 (create_secret_outcomes (H := scripted []) cli_config (secret_named "db")
                  sample_user
                  (scripted_state [] [] [Exited 125 [] (line "secret name in use")]) Hok)).
Defined.

Lemma bootstrap_admin_can_log_in_witness :
  (∅ : gmap str User) !! py "admin" = None
  /\ login (H := sample_auth) {| login_username := py "admin"; login_password := py "admin" |}
       (init_db (H := sample_auth) (py "salt") 0 ∅) 5
     = inr (JDict [(py "access_token", JStr (py "token-for-admin"));
                   (py "token_type", JStr (py "bearer"))]).
Proof.
  assert (Hnone : (∅ : gmap str User) !! py "admin" = None) by reflexivity.
  split; [exact Hnone|].
  exact (bootstrap_admin_can_log_in (H := sample_auth) (py "salt") 0 5 ∅ Hnone eq_refl).
Defined.

Lemma changed_password_takes_effect_witness :
  sample_db !! database.username sample_user = Some sample_user
  /\ login (H := sample_auth)
       {| login_username := py "admin"; login_password := py "hunter2" |}
       (snd (change_password (H := sample_auth)
               {| current_password := py "admin"; new_password := py "hunter2" |}
               sample_user sample_db (py "pepper") 7)) 9
     = inr (JDict [(py "access_token", JStr (py "token-for-admin"));
                   (py "token_type", JStr (py "bearer"))])
  /\ login (H := sample_auth)
       {| login_username := py "admin"; login_password := py "admin" |}
       (snd (change_password (H := sample_auth)
               {| current_password := py "admin"; new_password := py "hunter2" |}
               sample_user sample_db (py "pepper") 7)) 9
     = inl (HTTPException HTTP_401_UNAUTHORIZED (py "Incorrect username or password")
              [(py "WWW-Authenticate", py "Bearer")]).
Proof.
  assert (Hstored : sample_db !! database.username sample_user = Some sample_user)
    by (vm_compute; reflexivity).
  split; [exact Hstored|].
  destruct (changed_password_takes_effect (H := sample_auth)
              {| current_password := py "admin"; new_password := py "hunter2" |}
              sample_user sample_db (py "pepper") 7 9 Hstored eq_refl) as [Hnew Hold].
  split; [exact (Hnew eq_refl) | exact (Hold (py "admin") eq_refl)].
Defined.

Lemma change_password_keeps_the_users_witness :
  sample_db !! database.username sample_user = Some sample_user
  /\ dom (snd (change_password (H := sample_auth)
                 {| current_password := py "admin"; new_password := py "hunter2" |}
                 sample_user sample_db (py "pepper") 7))
     = dom sample_db.
Proof.
  assert (Hstored : sample_db !! database.username sample_user = Some sample_user)
    by (vm_compute; reflexivity).
  split; [exact Hstored|].
  exact (proj1 (change_password_keeps_the_users (H := sample_auth)
                  {| current_password := py "admin"; new_password := py "hunter2" |}
                  sample_user sample_db (py "pepper") 7 Hstored)).
Defined.
